(** * GaussianMLPModel: the output head of a diagonal-Gaussian policy

    A shallow embedding of [garage/tf/models/gaussian_mlp_model.py].

    Numbers.  The source computes with numpy and TensorFlow floats.  The
    embedding uses the real numbers of the Standard Library instead:
    [np.log] is [ln], [np.exp] and [tf.exp] are [exp], [tf.maximum] and
    [tf.minimum] are [Rmax] and [Rmin].  Rounding, infinities and NaN are
    outside the model; [ln] is the natural logarithm on positive arguments
    (the domain on which [np.log] returns a finite number).

    Tensors.  A tensor is a batch of rows, [batch, width], with the static
    width the graph knows and the rows a run produces.

    Effects.  [_build] runs in a small state monad that keeps the current
    variable scope, the log of the graph-building calls made so far, and
    the position in the stream that [tf.random.normal] draws from. *)

From Stdlib Require Import Reals Lra List String Bool Arith Lia.
Import ListNotations.

Open Scope string_scope.
Open Scope list_scope.
Open Scope R_scope.

(** ** Values passed around by the constructor *)

(** A Python float that may also be [None]. *)
Definition pyfloat := option R.

(** Activation functions are first-class functions; [None] is the identity. *)
Definition activation := R -> R.
Definition nonlinearity := option activation.

Definition tf_nn_tanh : activation := tanh.

(** What [tf.constant_initializer] is given: a scalar or a numpy array. *)
Inductive const_value :=
| cv_scalar (v : pyfloat)
| cv_array (a : list pyfloat).

Inductive initializer :=
| glorot_uniform_initializer
| zeros_initializer
| constant_initializer (value : const_value).

Inductive exn := NotImplementedError.

Inductive outcome :=
| Returned
| Raised (e : exn).

(** ** The constructor's signature *)

(** A call site: [output_dim] is positional and required, every other
    parameter is a keyword with a default; [None] means the caller left
    the keyword out. *)
Record kwargs := mk_kwargs {
  kw_name : option (option string);
  kw_hidden_sizes : option (list nat);
  kw_hidden_nonlinearity : option nonlinearity;
  kw_hidden_w_init : option initializer;
  kw_hidden_b_init : option initializer;
  kw_output_nonlinearity : option nonlinearity;
  kw_output_w_init : option initializer;
  kw_output_b_init : option initializer;
  kw_learn_std : option bool;
  kw_adaptive_std : option bool;
  kw_std_share_network : option bool;
  kw_init_std : option R;
  kw_min_std : option pyfloat;
  kw_max_std : option pyfloat;
  kw_std_hidden_sizes : option (list nat);
  kw_std_hidden_nonlinearity : option nonlinearity;
  kw_std_hidden_w_init : option initializer;
  kw_std_hidden_b_init : option initializer;
  kw_std_output_nonlinearity : option nonlinearity;
  kw_std_output_w_init : option initializer;
  kw_std_output_b_init : option initializer;
  kw_std_parameterization : option string;
  kw_layer_normalization : option bool
}.

Definition no_kwargs : kwargs :=
  mk_kwargs None None None None None None None None None None None None
            None None None None None None None None None None None.

(** The parameters of [__init__] once the defaults are filled in. *)
Record params := mk_params {
  output_dim : nat;
  name : option string;
  hidden_sizes : list nat;
  hidden_nonlinearity : nonlinearity;
  hidden_w_init : initializer;
  hidden_b_init : initializer;
  output_nonlinearity : nonlinearity;
  output_w_init : initializer;
  output_b_init : initializer;
  learn_std : bool;
  adaptive_std : bool;
  std_share_network : bool;
  init_std : R;
  min_std : pyfloat;
  max_std : pyfloat;
  std_hidden_sizes : list nat;
  std_hidden_nonlinearity : nonlinearity;
  std_hidden_w_init : initializer;
  std_hidden_b_init : initializer;
  std_output_nonlinearity : nonlinearity;
  std_output_w_init : initializer;
  std_output_b_init : initializer;
  std_parameterization : string;
  layer_normalization : bool
}.

Definition default {A} (d : A) (o : option A) : A :=
  match o with
  | Some a => a
  | None => d
  end.

(** Lines 45-69: the defaults of the signature. *)
Definition bind_args (output_dim : nat) (kw : kwargs) : params :=
  {| output_dim := output_dim;
     name := default None (kw_name kw);
     hidden_sizes := default [32%nat; 32%nat] (kw_hidden_sizes kw);
     hidden_nonlinearity := default (Some tf_nn_tanh) (kw_hidden_nonlinearity kw);
     hidden_w_init := default glorot_uniform_initializer (kw_hidden_w_init kw);
     hidden_b_init := default zeros_initializer (kw_hidden_b_init kw);
     output_nonlinearity := default None (kw_output_nonlinearity kw);
     output_w_init := default glorot_uniform_initializer (kw_output_w_init kw);
     output_b_init := default zeros_initializer (kw_output_b_init kw);
     learn_std := default true (kw_learn_std kw);
     adaptive_std := default false (kw_adaptive_std kw);
     std_share_network := default false (kw_std_share_network kw);
     init_std := default 1.0 (kw_init_std kw);
     min_std := default (Some 1e-6) (kw_min_std kw);
     max_std := default None (kw_max_std kw);
     std_hidden_sizes := default [32%nat; 32%nat] (kw_std_hidden_sizes kw);
     std_hidden_nonlinearity :=
       default (Some tf_nn_tanh) (kw_std_hidden_nonlinearity kw);
     std_hidden_w_init :=
       default glorot_uniform_initializer (kw_std_hidden_w_init kw);
     std_hidden_b_init := default zeros_initializer (kw_std_hidden_b_init kw);
     std_output_nonlinearity := default None (kw_std_output_nonlinearity kw);
     std_output_w_init :=
       default glorot_uniform_initializer (kw_std_output_w_init kw);
     std_output_b_init := default zeros_initializer (kw_std_output_b_init kw);
     std_parameterization := default "exp" (kw_std_parameterization kw);
     layer_normalization := default false (kw_layer_normalization kw) |}.

(** ** The object *)

(** The attributes [__init__] assigns, in the order of lines 71-98.  [_name]
    is the argument line 71 hands to [Model.__init__]; what the base class
    does with it is outside this file. *)
Record GaussianMLPModel := mk_model {
  _name : option string;
  _hidden_sizes : list nat;
  _output_dim : nat;
  _learn_std : bool;
  _adaptive_std : bool;
  _std_share_network : bool;
  _std_hidden_sizes : list nat;
  _min_std : pyfloat;
  _max_std : pyfloat;
  _std_hidden_nonlinearity : nonlinearity;
  _std_hidden_w_init : initializer;
  _std_hidden_b_init : initializer;
  _std_output_nonlinearity : nonlinearity;
  _std_output_w_init : initializer;
  _std_output_b_init : initializer;
  _std_parameterization : string;
  _hidden_nonlinearity : nonlinearity;
  _hidden_w_init : initializer;
  _hidden_b_init : initializer;
  _output_nonlinearity : nonlinearity;
  _output_w_init : initializer;
  _output_b_init : initializer;
  _layer_normalization : bool;
  _init_std_param : pyfloat;
  _min_std_param : pyfloat;
  _max_std_param : pyfloat
}.

(** Assignment to one of the three derived attributes. *)
Definition set_init_std_param (self : GaussianMLPModel) (v : pyfloat) :=
  mk_model (_name self) (_hidden_sizes self) (_output_dim self)
    (_learn_std self) (_adaptive_std self) (_std_share_network self)
    (_std_hidden_sizes self) (_min_std self) (_max_std self)
    (_std_hidden_nonlinearity self) (_std_hidden_w_init self)
    (_std_hidden_b_init self) (_std_output_nonlinearity self)
    (_std_output_w_init self) (_std_output_b_init self)
    (_std_parameterization self) (_hidden_nonlinearity self)
    (_hidden_w_init self) (_hidden_b_init self) (_output_nonlinearity self)
    (_output_w_init self) (_output_b_init self) (_layer_normalization self)
    v (_min_std_param self) (_max_std_param self).

Definition set_min_std_param (self : GaussianMLPModel) (v : pyfloat) :=
  mk_model (_name self) (_hidden_sizes self) (_output_dim self)
    (_learn_std self) (_adaptive_std self) (_std_share_network self)
    (_std_hidden_sizes self) (_min_std self) (_max_std self)
    (_std_hidden_nonlinearity self) (_std_hidden_w_init self)
    (_std_hidden_b_init self) (_std_output_nonlinearity self)
    (_std_output_w_init self) (_std_output_b_init self)
    (_std_parameterization self) (_hidden_nonlinearity self)
    (_hidden_w_init self) (_hidden_b_init self) (_output_nonlinearity self)
    (_output_w_init self) (_output_b_init self) (_layer_normalization self)
    (_init_std_param self) v (_max_std_param self).

Definition set_max_std_param (self : GaussianMLPModel) (v : pyfloat) :=
  mk_model (_name self) (_hidden_sizes self) (_output_dim self)
    (_learn_std self) (_adaptive_std self) (_std_share_network self)
    (_std_hidden_sizes self) (_min_std self) (_max_std self)
    (_std_hidden_nonlinearity self) (_std_hidden_w_init self)
    (_std_hidden_b_init self) (_std_output_nonlinearity self)
    (_std_output_w_init self) (_std_output_b_init self)
    (_std_parameterization self) (_hidden_nonlinearity self)
    (_hidden_w_init self) (_hidden_b_init self) (_output_nonlinearity self)
    (_output_w_init self) (_output_b_init self) (_layer_normalization self)
    (_init_std_param self) (_min_std_param self) v.

(** ** StdParametrizer: lines 95-112 *)

Definition np_log (x : R) : R := ln x.
Definition np_exp (x : R) : R := exp x.

(** Lines 71-98: the attributes are stored and the three derived ones start
    as [None]. *)
Definition store_attributes (p : params) : GaussianMLPModel :=
  {| _name := name p;
     _hidden_sizes := hidden_sizes p;
     _output_dim := output_dim p;
     _learn_std := learn_std p;
     _adaptive_std := adaptive_std p;
     _std_share_network := std_share_network p;
     _std_hidden_sizes := std_hidden_sizes p;
     _min_std := min_std p;
     _max_std := max_std p;
     _std_hidden_nonlinearity := std_hidden_nonlinearity p;
     _std_hidden_w_init := std_hidden_w_init p;
     _std_hidden_b_init := std_hidden_b_init p;
     _std_output_nonlinearity := std_output_nonlinearity p;
     _std_output_w_init := std_output_w_init p;
     _std_output_b_init := std_output_b_init p;
     _std_parameterization := std_parameterization p;
     _hidden_nonlinearity := hidden_nonlinearity p;
     _hidden_w_init := hidden_w_init p;
     _hidden_b_init := hidden_b_init p;
     _output_nonlinearity := output_nonlinearity p;
     _output_w_init := output_w_init p;
     _output_b_init := output_b_init p;
     _layer_normalization := layer_normalization p;
     _init_std_param := None;
     _min_std_param := None;
     _max_std_param := None |}.

(** [if v is not None: self.attr = f(v)] *)
Definition assign_if_given (set : GaussianMLPModel -> pyfloat -> GaussianMLPModel)
    (f : R -> R) (v : pyfloat) (self : GaussianMLPModel) : GaussianMLPModel :=
  match v with
  | Some x => set self (Some (f x))
  | None => self
  end.

(** The inverse of softplus, as line 106 writes it. *)
Definition inv_softplus (x : R) : R := np_log (np_exp x - 1).

(** [__init__] as a state transformer on [self]: how the call ended, and the
    attributes of the object at that point. *)
Definition __init__ (p : params) : outcome * GaussianMLPModel :=
  let self := store_attributes p in
  if (_std_parameterization self =? "exp")%string then
    let self := set_init_std_param self (Some (np_log (init_std p))) in
    let self := assign_if_given set_min_std_param np_log (min_std p) self in
    let self := assign_if_given set_max_std_param np_log (max_std p) self in
    (Returned, self)
  else if (_std_parameterization self =? "softplus")%string then
    let self := set_init_std_param self (Some (inv_softplus (init_std p))) in
    let self := assign_if_given set_min_std_param inv_softplus (min_std p) self in
    let self := assign_if_given set_max_std_param inv_softplus (max_std p) self in
    (Returned, self)
  else
    (Raised NotImplementedError, self).

(** What the caller of [GaussianMLPModel(...)] gets: the object, or the
    exception and no object. *)
Definition construct (p : params) : GaussianMLPModel + exn :=
  match __init__ p with
  | (Returned, self) => inl self
  | (Raised e, _) => inr e
  end.

Definition new (output_dim : nat) (kw : kwargs) : GaussianMLPModel + exn :=
  construct (bind_args output_dim kw).

(** ** Tensors *)

(** A [batch, width] tensor: the last dimension is known when the graph is
    built; the rows are what a run feeds or computes. *)
Record Tensor := mk_tensor {
  width : nat;
  rows : list (list R)
}.

Definition batch_size (t : Tensor) : nat := List.length (rows t).

(** [t.get_shape().as_list()] *)
Definition get_shape (t : Tensor) : list nat := [batch_size t; width t].

(** Every row has the static width. *)
Definition well_shaped (t : Tensor) : Prop :=
  Forall (fun r => List.length r = width t) (rows t).

(** An elementwise operation with a scalar or with no other operand. *)
Definition tmap (f : R -> R) (t : Tensor) : Tensor :=
  {| width := width t; rows := map (map f) (rows t) |}.

Fixpoint map2 {A B C} (f : A -> B -> C) (xs : list A) (ys : list B) : list C :=
  match xs, ys with
  | x :: xs', y :: ys' => f x y :: map2 f xs' ys'
  | _, _ => []
  end.

Definition tf_maximum (t : Tensor) (c : R) : Tensor := tmap (fun x => Rmax x c) t.
Definition tf_minimum (t : Tensor) (c : R) : Tensor := tmap (fun x => Rmin x c) t.
Definition tf_exp (t : Tensor) : Tensor := tmap exp t.
Definition tf_log (t : Tensor) : Tensor := tmap ln t.
Definition scalar_plus (c : R) (t : Tensor) : Tensor := tmap (fun x => c + x) t.

(** [v * t] for a vector [v] of the row shape: broadcast over the batch.
    TensorFlow raises when the last dimensions disagree; the definition is
    the product only for rows as long as [v], which the builder's shape
    contract provides. *)
Definition broadcast_mul (v : list R) (t : Tensor) : Tensor :=
  {| width := width t; rows := map (map2 Rmult v) (rows t) |}.

(** [a + b] for two tensors of one shape (TensorFlow raises or broadcasts
    otherwise; the definition is the sum only when the shapes agree). *)
Definition tensor_add (a b : Tensor) : Tensor :=
  {| width := width a; rows := map2 (map2 Rplus) (rows a) (rows b) |}.

(** [t[..., :n]] and [t[..., n:]] *)
Definition slice_upto (n : nat) (t : Tensor) : Tensor :=
  {| width := Nat.min n (width t); rows := map (firstn n) (rows t) |}.

Definition slice_from (n : nat) (t : Tensor) : Tensor :=
  {| width := (width t - n)%nat; rows := map (skipn n) (rows t) |}.

(** numpy helpers of lines 124-127 *)
Definition np_zeros (n : nat) : list pyfloat := repeat (Some 0) n.
Definition np_full (n : nat) (v : pyfloat) : list pyfloat := repeat v n.
Definition np_concatenate (arrays : list (list pyfloat)) : list pyfloat :=
  List.concat arrays.

(** [DiagonalGaussian(dim)]: the constructor is given the dimension only. *)
Record DiagonalGaussian := mk_DiagonalGaussian { dist_dim : nat }.

(** ** Graph building *)

Record mlp_call := mk_mlp_call {
  mlp_input : Tensor;
  mlp_output_dim : nat;
  mlp_hidden_sizes : list nat;
  mlp_hidden_nonlinearity : nonlinearity;
  mlp_hidden_w_init : initializer;
  mlp_hidden_b_init : initializer;
  mlp_output_nonlinearity : nonlinearity;
  mlp_output_w_init : initializer;
  mlp_output_b_init : initializer;
  mlp_name : string;
  mlp_layer_normalization : bool
}.

Record parameter_call := mk_parameter_call {
  par_input : Tensor;
  par_length : nat;
  par_initializer : initializer;
  par_trainable : bool;
  par_name : string
}.

(** A call that creates variables, with the variable scope it was made in. *)
Inductive call :=
| CallMlp (scope : list string) (c : mlp_call)
| CallParameter (scope : list string) (c : parameter_call).

Record graph := mk_graph {
  scope : list string;
  calls : list call;
  random : nat -> R
}.

Definition M (A : Type) : Type := graph -> A * graph.

Definition ret {A} (a : A) : M A := fun g => (a, g).

Definition bind {A B} (m : M A) (k : A -> M B) : M B :=
  fun g => let (a, g') := m g in k a g'.

Notation "x <- m ;; k" := (bind m (fun x => k))
  (at level 61, m at next level, right associativity).
Notation "' pat <- m ;; k" := (bind m (fun x => match x with pat => k end))
  (at level 61, pat pattern, m at next level, right associativity).

Definition get_scope : M (list string) := fun g => (scope g, g).

Definition record (c : call) : M unit :=
  fun g => (tt, mk_graph (scope g) (calls g ++ [c]) (random g)).

(** [with tf.variable_scope(name): body] *)
Definition variable_scope {A} (name : string) (body : M A) : M A :=
  fun g =>
    let (a, g') := body (mk_graph (scope g ++ [name]) (calls g) (random g)) in
    (a, mk_graph (scope g) (calls g') (random g')).

(** [tf.random.normal(shape=shape)]: as many draws as the shape has
    entries, taken from the front of the stream. *)
Definition tf_random_normal (shape : list nat) : M (list R) :=
  fun g =>
    let n := fold_right Nat.mul 1%nat shape in
    (map (random g) (seq 0 n),
     mk_graph (scope g) (calls g) (fun i => random g (n + i)%nat)).

Definition fresh_graph (random : nat -> R) : graph := mk_graph [] [] random.

(** ** The forward definition: lines 118-206 *)

(** StdClamp, lines 189-193, on a tensor. *)
Definition std_limits (self : GaussianMLPModel) (std_param : Tensor) : Tensor :=
  let std_param :=
    match _min_std_param self with
    | Some lo => tf_maximum std_param lo
    | None => std_param
    end in
  let std_param :=
    match _max_std_param self with
    | Some hi => tf_minimum std_param hi
    | None => std_param
    end in
  std_param.

(** LogStdConverter, lines 195-200. *)
Definition to_log_std (self : GaussianMLPModel) (std_param : Tensor) : Tensor :=
  if (_std_parameterization self =? "exp")%string then std_param
  else tf_log (tf_log (scalar_plus 1 (tf_exp std_param))).

Section Build.

(** [garage.tf.core.mlp.mlp] is not part of the source under study: the
    network it builds is a parameter of the development.  Its output may
    depend on every argument and on the scope its variables live in. *)
Variable mlp_net : list string -> mlp_call -> Tensor.

(** The current value of the variable a [parameter] call creates or
    reuses, by scoped name, length, initializer and trainability. *)
Variable variable_value : list string -> nat -> initializer -> bool -> list R.

Definition mlp (input_var : Tensor) (output_dim : nat) (hidden_sizes : list nat)
    (hidden_nonlinearity : nonlinearity) (hidden_w_init hidden_b_init : initializer)
    (output_nonlinearity : nonlinearity) (output_w_init output_b_init : initializer)
    (name : string) (layer_normalization : bool) : M Tensor :=
  let c := mk_mlp_call input_var output_dim hidden_sizes hidden_nonlinearity
             hidden_w_init hidden_b_init output_nonlinearity output_w_init
             output_b_init name layer_normalization in
  s <- get_scope ;;
  _ <- record (CallMlp s c) ;;
  ret (mlp_net s c).

(** Modelled from the spec: [garage.tf.core.parameter.parameter] is missing
    from the source.  The spec gives it as
    [parameter(reference_input, length, initializer, trainable)], which
    broadcasts one vector of the given length across the batch of the
    reference input; the call in [_build] also passes a name. *)
Definition parameter (input_var : Tensor) (length : nat) (initializer : initializer)
    (trainable : bool) (name : string) : M Tensor :=
  let c := mk_parameter_call input_var length initializer trainable name in
  s <- get_scope ;;
  _ <- record (CallParameter s c) ;;
  ret {| width := length;
         rows := repeat (variable_value (s ++ [name]) length initializer trainable)
                        (batch_size input_var) |}.

(** MeanStdNetworkFactory, lines 121-184. *)
Definition dist_params (self : GaussianMLPModel) (state_input : Tensor)
    : M (Tensor * Tensor) :=
  let action_dim := _output_dim self in
  variable_scope "dist_params" (
    if _std_share_network self then
      let b := np_concatenate [np_zeros action_dim;
                               np_full action_dim (_init_std_param self)] in
      mean_std_network <-
        mlp state_input (action_dim * 2) (_hidden_sizes self)
            (_hidden_nonlinearity self) (_hidden_w_init self)
            (_hidden_b_init self) (_output_nonlinearity self)
            (_output_w_init self) (constant_initializer (cv_array b))
            "mean_std_network" (_layer_normalization self) ;;
      mean_network <-
        variable_scope "mean_network"
          (ret (slice_upto action_dim mean_std_network)) ;;
      log_std_network <-
        variable_scope "log_std_network"
          (ret (slice_from action_dim mean_std_network)) ;;
      ret (mean_network, log_std_network)
    else
      mean_network <-
        mlp state_input action_dim (_hidden_sizes self)
            (_hidden_nonlinearity self) (_hidden_w_init self)
            (_hidden_b_init self) (_output_nonlinearity self)
            (_output_w_init self) (_output_b_init self)
            "mean_network" (_layer_normalization self) ;;
      log_std_network <-
        (if _adaptive_std self then
           mlp state_input action_dim (_std_hidden_sizes self)
               (_std_hidden_nonlinearity self) (_std_hidden_w_init self)
               (_std_hidden_b_init self) (_std_output_nonlinearity self)
               (_std_output_w_init self)
               (constant_initializer (cv_scalar (_init_std_param self)))
               "log_std_network" (_layer_normalization self)
         else
           parameter state_input action_dim
               (constant_initializer (cv_scalar (_init_std_param self)))
               (_learn_std self) "log_std_network") ;;
      ret (mean_network, log_std_network)).

Definition _build (self : GaussianMLPModel) (state_input : Tensor)
    : M (Tensor * Tensor * Tensor * Tensor * DiagonalGaussian) :=
  '(mean_network, log_std_network) <- dist_params self state_input ;;
  let mean_var := mean_network in
  let std_param := log_std_network in
  std_param <- variable_scope "std_limits" (ret (std_limits self std_param)) ;;
  log_std_var <-
    variable_scope "std_parameterization" (ret (to_log_std self std_param)) ;;
  let dist := mk_DiagonalGaussian (_output_dim self) in
  rnd <- tf_random_normal (tl (get_shape mean_var)) ;;
  let action_var := tensor_add (broadcast_mul rnd (tf_exp log_std_var)) mean_var in
  ret (action_var, mean_var, log_std_var, std_param, dist).

End Build.


(** ** Vocabulary of the properties *)

(** The three derived attributes, read off the object together. *)
Definition derived_bounds (self : GaussianMLPModel) : pyfloat * pyfloat * pyfloat :=
  (_init_std_param self, _min_std_param self, _max_std_param self).

(** What one entry goes through: the lower bound, then the upper bound,
    each only when it is configured. *)
Definition clamp (lo hi : pyfloat) (x : R) : R :=
  let x := match lo with Some l => Rmax x l | None => x end in
  match hi with Some h => Rmin x h | None => x end.

(** The output tuple of [_build], by the names of [network_output_spec]. *)
Definition forward_output : Type :=
  (Tensor * Tensor * Tensor * Tensor * DiagonalGaussian)%type.

Definition out_sample (o : forward_output) : Tensor :=
  let '(sample, _, _, _, _) := o in sample.
Definition out_mean (o : forward_output) : Tensor :=
  let '(_, mean, _, _, _) := o in mean.
Definition out_log_std (o : forward_output) : Tensor :=
  let '(_, _, log_std, _, _) := o in log_std.
Definition out_std_param (o : forward_output) : Tensor :=
  let '(_, _, _, std_param, _) := o in std_param.

(** One entry of a [batch, width] tensor. *)
Definition entry (t : Tensor) (i j : nat) : R := nth j (nth i (rows t) []) 0.

(** The contract the spec gives the subnetwork builder: the output has the
    requested width, one row per input row. *)
Definition mlp_honours_shape (mlp_net : list string -> mlp_call -> Tensor) : Prop :=
  forall s c,
    width (mlp_net s c) = mlp_output_dim c /\
    batch_size (mlp_net s c) = batch_size (mlp_input c) /\
    well_shaped (mlp_net s c).

(** A variable has the length it was created with. *)
Definition variable_honours_length
    (variable_value : list string -> nat -> initializer -> bool -> list R) : Prop :=
  forall s n i t, List.length (variable_value s n i t) = n.

(** The call of lines 129-140. *)
Definition shared_mlp_call (self : GaussianMLPModel) (state_input : Tensor) : mlp_call :=
  mk_mlp_call state_input (_output_dim self * 2) (_hidden_sizes self)
    (_hidden_nonlinearity self) (_hidden_w_init self) (_hidden_b_init self)
    (_output_nonlinearity self) (_output_w_init self)
    (constant_initializer
       (cv_array (np_concatenate [np_zeros (_output_dim self);
                                  np_full (_output_dim self) (_init_std_param self)])))
    "mean_std_network" (_layer_normalization self).

(** The call of lines 149-160. *)
Definition mean_mlp_call (self : GaussianMLPModel) (state_input : Tensor) : mlp_call :=
  mk_mlp_call state_input (_output_dim self) (_hidden_sizes self)
    (_hidden_nonlinearity self) (_hidden_w_init self) (_hidden_b_init self)
    (_output_nonlinearity self) (_output_w_init self) (_output_b_init self)
    "mean_network" (_layer_normalization self).

(** The call of lines 164-176. *)
Definition std_mlp_call (self : GaussianMLPModel) (state_input : Tensor) : mlp_call :=
  mk_mlp_call state_input (_output_dim self) (_std_hidden_sizes self)
    (_std_hidden_nonlinearity self) (_std_hidden_w_init self)
    (_std_hidden_b_init self) (_std_output_nonlinearity self)
    (_std_output_w_init self)
    (constant_initializer (cv_scalar (_init_std_param self)))
    "log_std_network" (_layer_normalization self).

(** The call of lines 178-184. *)
Definition std_parameter_call (self : GaussianMLPModel) (state_input : Tensor)
    : parameter_call :=
  mk_parameter_call state_input (_output_dim self)
    (constant_initializer (cv_scalar (_init_std_param self)))
    (_learn_std self) "log_std_network".

(** The seven std-network options and [adaptive_std], replaced at once. *)
Definition set_std_network_options (self : GaussianMLPModel) (adaptive_std : bool)
    (std_hidden_sizes : list nat) (std_hidden_nonlinearity : nonlinearity)
    (std_hidden_w_init std_hidden_b_init : initializer)
    (std_output_nonlinearity : nonlinearity)
    (std_output_w_init std_output_b_init : initializer) : GaussianMLPModel :=
  mk_model (_name self) (_hidden_sizes self) (_output_dim self)
    (_learn_std self) adaptive_std (_std_share_network self)
    std_hidden_sizes (_min_std self) (_max_std self)
    std_hidden_nonlinearity std_hidden_w_init std_hidden_b_init
    std_output_nonlinearity std_output_w_init std_output_b_init
    (_std_parameterization self) (_hidden_nonlinearity self)
    (_hidden_w_init self) (_hidden_b_init self) (_output_nonlinearity self)
    (_output_w_init self) (_output_b_init self) (_layer_normalization self)
    (_init_std_param self) (_min_std_param self) (_max_std_param self).

(** ** Concrete models, inputs and backends *)

(** [GaussianMLPModel(..., std_parameterization=mode)] *)
Definition kwargs_with_mode (mode : string) : kwargs :=
  mk_kwargs None None None None None None None None None None None None
            None None None None None None None None None (Some mode) None.

(** [GaussianMLPModel(1, min_std=2.0, max_std=1.0)]: the bounds are
    inverted, [ln 2 > ln 1]. *)
Definition kwargs_inverted_bounds : kwargs :=
  mk_kwargs None None None None None None None None None None None None
            (Some (Some 2)) (Some (Some 1)) None None None None None None None
            None None.

(** The object [__init__] leaves for that call. *)
Definition inverted_model : GaussianMLPModel :=
  snd (__init__ (bind_args 1 kwargs_inverted_bounds)).

(** [GaussianMLPModel(1, std_parameterization='softplus')] *)
Definition softplus_model : GaussianMLPModel :=
  snd (__init__ (bind_args 1 (kwargs_with_mode "softplus"))).

(** The value a bias initializer gives the [j]-th output. *)
Definition initial_bias (i : initializer) (j : nat) : R :=
  match i with
  | constant_initializer (cv_scalar (Some c)) => c
  | constant_initializer (cv_array a) =>
      match nth j a None with
      | Some c => c
      | None => 0
      end
  | _ => 0
  end.

(** A one-layer linear network with every weight one and the output bias
    at its initial value: each output is the sum of the inputs plus its
    bias. *)
Definition linear_net (s : list string) (c : mlp_call) : Tensor :=
  {| width := mlp_output_dim c;
     rows := map (fun r =>
                    map (fun j => fold_right Rplus 0 r
                                  + initial_bias (mlp_output_b_init c) j)
                        (seq 0 (mlp_output_dim c)))
                 (rows (mlp_input c)) |}.

(** A variable that has not been trained: it holds what a constant
    initializer put there (other initializers are read as zero). *)
Definition untrained_value (s : list string) (n : nat) (i : initializer)
    (trainable : bool) : list R :=
  repeat (initial_bias i 0) n.

(** [std_share_network=True] *)
Definition kwargs_shared : kwargs :=
  mk_kwargs None None None None None None None None None None (Some true) None
            None None None None None None None None None None None.

(** [GaussianMLPModel(2, std_share_network=True)] *)
Definition shared_model : GaussianMLPModel :=
  snd (__init__ (bind_args 2 kwargs_shared)).

(** [GaussianMLPModel(2)] *)
Definition default_model : GaussianMLPModel :=
  snd (__init__ (bind_args 2 no_kwargs)).

(** A batch of two states of dimension three, and a graph with nothing
    built yet whose random stream counts up from zero. *)
Definition two_states : Tensor := mk_tensor 3 [[1; 2; 3]; [4; 5; 6]].
Definition empty_graph : graph := fresh_graph INR.


(** ** Further vocabulary: the std a parameter stands for *)

(** [log(1 + exp(x))], as the class docstring writes softplus (line 40). *)
Definition softplus (x : R) : R := ln (1 + exp x).

(** The transform lines 99-110 apply to [init_std], [min_std], [max_std]
    under a supported mode, and the std that lines 195-204 read back from a
    parameter: [tf.exp] of the log-std. *)
Definition std_to_param (mode : string) (v : R) : R :=
  if (mode =? "exp")%string then np_log v else inv_softplus v.

Definition param_to_std (mode : string) (x : R) : R :=
  if (mode =? "exp")%string then exp x else softplus x.

(** A property of every entry of a tensor. *)
Definition all_entries (P : R -> Prop) (t : Tensor) : Prop :=
  Forall (Forall P) (rows t).

(** An entry within the bounds that are configured. *)
Definition within (lo hi : pyfloat) (x : R) : Prop :=
  match lo with Some l => l <= x | None => True end /\
  match hi with Some h => x <= h | None => True end.

(** The same object with another [_learn_std]. *)
Definition set_learn_std (self : GaussianMLPModel) (v : bool) : GaussianMLPModel :=
  mk_model (_name self) (_hidden_sizes self) (_output_dim self) v
    (_adaptive_std self) (_std_share_network self) (_std_hidden_sizes self)
    (_min_std self) (_max_std self) (_std_hidden_nonlinearity self)
    (_std_hidden_w_init self) (_std_hidden_b_init self)
    (_std_output_nonlinearity self) (_std_output_w_init self)
    (_std_output_b_init self) (_std_parameterization self)
    (_hidden_nonlinearity self) (_hidden_w_init self) (_hidden_b_init self)
    (_output_nonlinearity self) (_output_w_init self) (_output_b_init self)
    (_layer_normalization self) (_init_std_param self) (_min_std_param self)
    (_max_std_param self).

(** The same object with another [_output_b_init]. *)
Definition set_output_b_init (self : GaussianMLPModel) (v : initializer)
    : GaussianMLPModel :=
  mk_model (_name self) (_hidden_sizes self) (_output_dim self)
    (_learn_std self) (_adaptive_std self) (_std_share_network self)
    (_std_hidden_sizes self) (_min_std self) (_max_std self)
    (_std_hidden_nonlinearity self) (_std_hidden_w_init self)
    (_std_hidden_b_init self) (_std_output_nonlinearity self)
    (_std_output_w_init self) (_std_output_b_init self)
    (_std_parameterization self) (_hidden_nonlinearity self)
    (_hidden_w_init self) (_hidden_b_init self) (_output_nonlinearity self)
    (_output_w_init self) v (_layer_normalization self)
    (_init_std_param self) (_min_std_param self) (_max_std_param self).

(** The same object with another [_std_output_b_init]. *)
Definition set_std_output_b_init (self : GaussianMLPModel) (v : initializer)
    : GaussianMLPModel :=
  mk_model (_name self) (_hidden_sizes self) (_output_dim self)
    (_learn_std self) (_adaptive_std self) (_std_share_network self)
    (_std_hidden_sizes self) (_min_std self) (_max_std self)
    (_std_hidden_nonlinearity self) (_std_hidden_w_init self)
    (_std_hidden_b_init self) (_std_output_nonlinearity self)
    (_std_output_w_init self) v (_std_parameterization self)
    (_hidden_nonlinearity self) (_hidden_w_init self) (_hidden_b_init self)
    (_output_nonlinearity self) (_output_w_init self) (_output_b_init self)
    (_layer_normalization self) (_init_std_param self) (_min_std_param self)
    (_max_std_param self).

(** [GaussianMLPModel(2, adaptive_std=True)] *)
Definition kwargs_adaptive : kwargs :=
  mk_kwargs None None None None None None None None None (Some true) None None
            None None None None None None None None None None None.

Definition adaptive_model : GaussianMLPModel :=
  snd (__init__ (bind_args 2 kwargs_adaptive)).

(** [GaussianMLPModel(2, min_std=0.5, max_std=2.0, std_parameterization=mode)] *)
Definition kwargs_bounded (mode : string) : kwargs :=
  mk_kwargs None None None None None None None None None None None None
            (Some (Some 0.5)) (Some (Some 2)) None None None None None None None
            (Some mode) None.

Definition bounded_model (mode : string) : GaussianMLPModel :=
  snd (__init__ (bind_args 2 (kwargs_bounded mode))).

(** A raw std parameter with entries below, between and above the bounds. *)
Definition raw_params : Tensor := mk_tensor 2 [[-9; 0]; [0.5; 9]].

(** The variable scope a logged call was made in. *)
Definition call_scope (c : call) : list string :=
  match c with
  | CallMlp s _ => s
  | CallParameter s _ => s
  end.

(** A well-shaped [b, d] tensor. *)
Definition has_shape (b d : nat) (t : Tensor) : Prop :=
  width t = d /\ batch_size t = b /\ well_shaped t.

(** * Properties *)

(** ** The constructor *)

Lemma store_attributes_mode (p : params) :
  _std_parameterization (store_attributes p) = std_parameterization p.
Proof. reflexivity. Qed.

Lemma init_exp (p : params) :
  std_parameterization p = "exp" ->
  exists self,
    __init__ p = (Returned, self) /\
    derived_bounds self =
      (Some (ln (init_std p)), option_map ln (min_std p), option_map ln (max_std p)).
Proof.
  intros Hmode. unfold __init__.
  rewrite store_attributes_mode, Hmode. simpl.
  eexists. split; [reflexivity|].
  destruct (min_std p), (max_std p); reflexivity.
Qed.

Lemma init_softplus (p : params) :
  std_parameterization p = "softplus" ->
  exists self,
    __init__ p = (Returned, self) /\
    derived_bounds self =
      (Some (ln (exp (init_std p) - 1)),
       option_map (fun v => ln (exp v - 1)) (min_std p),
       option_map (fun v => ln (exp v - 1)) (max_std p)).
Proof.
  intros Hmode. unfold __init__.
  rewrite store_attributes_mode, Hmode. simpl.
  eexists. split; [reflexivity|].
  destruct (min_std p), (max_std p); reflexivity.
Qed.

Lemma init_other (p : params) :
  std_parameterization p <> "exp" ->
  std_parameterization p <> "softplus" ->
  __init__ p = (Raised NotImplementedError, store_attributes p).
Proof.
  intros Hexp Hsoft. unfold __init__.
  rewrite store_attributes_mode.
  apply String.eqb_neq in Hexp. apply String.eqb_neq in Hsoft.
  rewrite Hexp, Hsoft. reflexivity.
Qed.

Lemma construct_of_init (p : params) (self : GaussianMLPModel) :
  __init__ p = (Returned, self) -> construct p = inl self.
Proof. intros H. unfold construct. rewrite H. reflexivity. Qed.

(** A constructed object comes from a parameterization the constructor
    knows. *)
Lemma constructed_mode (p : params) (self : GaussianMLPModel) :
  construct p = inl self ->
  (std_parameterization p = "exp" \/ std_parameterization p = "softplus") /\
  __init__ p = (Returned, self).
Proof.
  unfold construct. intros H.
  destruct (String.eqb_spec (std_parameterization p) "exp") as [He|He];
    [split; [now left|] |].
  - destruct (init_exp p He) as [s [Hs _]]. rewrite Hs in *. congruence.
  - destruct (String.eqb_spec (std_parameterization p) "softplus") as [Hs|Hs].
    + split; [now right|].
      destruct (init_softplus p Hs) as [s [Hi _]]. rewrite Hi in *. congruence.
    + rewrite (init_other p He Hs) in H. discriminate.
Qed.

(** The two supported modes, side by side. *)
Lemma derived_bounds_follow_parameterization_aux (p : params) :
  (std_parameterization p = "exp" ->
   exists self,
     construct p = inl self /\
     _init_std_param self = Some (ln (init_std p)) /\
     _min_std_param self = option_map ln (min_std p) /\
     _max_std_param self = option_map ln (max_std p)) /\
  (std_parameterization p = "softplus" ->
   exists self,
     construct p = inl self /\
     _init_std_param self = Some (ln (exp (init_std p) - 1)) /\
     _min_std_param self = option_map (fun v => ln (exp v - 1)) (min_std p) /\
     _max_std_param self = option_map (fun v => ln (exp v - 1)) (max_std p)).
Proof.
  split; intros Hmode.
  - destruct (init_exp p Hmode) as [self [Hinit Hb]].
    exists self. unfold derived_bounds in Hb.
    injection Hb as Hi Hlo Hhi.
    repeat split; auto using construct_of_init.
  - destruct (init_softplus p Hmode) as [self [Hinit Hb]].
    exists self. unfold derived_bounds in Hb.
    injection Hb as Hi Hlo Hhi.
    repeat split; auto using construct_of_init.
Qed.

(** C1: at construction the derived bounds follow [std_parameterization].
    Under [exp] the object is returned with [init_std_param = ln(init_std)],
    and [min_std_param], [max_std_param] are [ln] of the input when it is
    given and stay [None] when it is [None]; under [softplus] the same holds
    with [ln(exp(value) - 1)].  With [init_std = 1.0] the initial parameter
    is [0.0] under [exp] and [ln(e - 1)] under [softplus]. *)
Theorem derived_bounds_follow_parameterization (p : params) :
  (std_parameterization p = "exp" ->
   exists self,
     construct p = inl self /\
     _init_std_param self = Some (ln (init_std p)) /\
     _min_std_param self = option_map ln (min_std p) /\
     _max_std_param self = option_map ln (max_std p) /\
     (init_std p = 1.0 -> _init_std_param self = Some 0.0)) /\
  (std_parameterization p = "softplus" ->
   exists self,
     construct p = inl self /\
     _init_std_param self = Some (ln (exp (init_std p) - 1)) /\
     _min_std_param self = option_map (fun v => ln (exp v - 1)) (min_std p) /\
     _max_std_param self = option_map (fun v => ln (exp v - 1)) (max_std p) /\
     (init_std p = 1.0 -> _init_std_param self = Some (ln (exp 1 - 1)))).
Proof.
  destruct (derived_bounds_follow_parameterization_aux p) as [Hexp Hsoft].
  split; intros Hmode.
  - destruct (Hexp Hmode) as [self [Hc [Hi [Hlo Hhi]]]].
    exists self. repeat split; auto.
    intros H1. rewrite Hi, H1. f_equal.
    replace 1.0 with 1 by lra. rewrite ln_1. lra.
  - destruct (Hsoft Hmode) as [self [Hc [Hi [Hlo Hhi]]]].
    exists self. repeat split; auto.
    intros H1. rewrite Hi, H1.
    replace 1.0 with 1 by lra. reflexivity.
Qed.

(** The default call [GaussianMLPModel(2)]: mode [exp], [init_std = 1.0]. *)
Lemma derived_bounds_follow_parameterization_witness :
  exists self,
    construct (bind_args 2 no_kwargs) = inl self /\
    _init_std_param self = Some (ln (init_std (bind_args 2 no_kwargs))) /\
    _min_std_param self = option_map ln (min_std (bind_args 2 no_kwargs)) /\
    _max_std_param self = option_map ln (max_std (bind_args 2 no_kwargs)) /\
    (init_std (bind_args 2 no_kwargs) = 1.0 -> _init_std_param self = Some 0.0).
Proof.
  apply (proj1 (derived_bounds_follow_parameterization (bind_args 2 no_kwargs))).
  reflexivity.
Defined.

(** C7: a [std_parameterization] that is neither ['exp'] nor ['softplus']
    makes the constructor raise (the source raises [NotImplementedError],
    the spec's UnsupportedParametrization); the caller gets no object, and
    at the raise none of the three derived bounds has been populated. *)
Theorem unsupported_parameterization_raises (p : params) :
  std_parameterization p <> "exp" ->
  std_parameterization p <> "softplus" ->
  construct p = inr NotImplementedError /\
  exists self,
    __init__ p = (Raised NotImplementedError, self) /\
    _init_std_param self = None /\
    _min_std_param self = None /\
    _max_std_param self = None.
Proof.
  intros Hexp Hsoft. pose proof (init_other p Hexp Hsoft) as H.
  split.
  - unfold construct. rewrite H. reflexivity.
  - exists (store_attributes p). repeat split; auto.
Qed.

Lemma unsupported_parameterization_raises_witness :
  construct (bind_args 2 (kwargs_with_mode "tanh")) = inr NotImplementedError /\
  exists self,
    __init__ (bind_args 2 (kwargs_with_mode "tanh")) =
      (Raised NotImplementedError, self) /\
    _init_std_param self = None /\
    _min_std_param self = None /\
    _max_std_param self = None.
Proof.
  apply (unsupported_parameterization_raises (bind_args 2 (kwargs_with_mode "tanh")));
    simpl; discriminate.
Defined.

(** Whatever the supported mode, a constructed object holds the three
    inputs pushed through one transform. *)
Lemma constructed_bounds (p : params) (self : GaussianMLPModel) :
  construct p = inl self ->
  exists f : R -> R,
    _init_std_param self = Some (f (init_std p)) /\
    _min_std_param self = option_map f (min_std p) /\
    _max_std_param self = option_map f (max_std p).
Proof.
  intros Hc. destruct (constructed_mode p self Hc) as [[Hm|Hm] Hi].
  - destruct (init_exp p Hm) as [s [Hs Hb]].
    assert (s = self) by congruence. subst s.
    exists ln. unfold derived_bounds in Hb. injection Hb as -> -> ->. auto.
  - destruct (init_softplus p Hm) as [s [Hs Hb]].
    assert (s = self) by congruence. subst s.
    exists (fun v => ln (exp v - 1)).
    unfold derived_bounds in Hb. injection Hb as -> -> ->. auto.
Qed.

Lemma std_limits_without_upper (self : GaussianMLPModel) (t : Tensor) :
  _max_std_param self = None ->
  std_limits self t =
    match _min_std_param self with
    | Some lo => tf_maximum t lo
    | None => t
    end.
Proof. intros H. unfold std_limits. rewrite H. reflexivity. Qed.

(** C9: a caller who leaves [min_std] out gets the default [1e-6], not
    [None], so a lower bound is configured ([ln(1e-6)] under [exp]); on a
    constructed object the lower bound is absent exactly when the caller
    passed [min_std=None].  [max_std] left out is [None], and then the
    clamp applies no upper bound. *)
Theorem min_std_defaults_to_a_lower_bound (d : nat) (kw : kwargs) :
  (kw_min_std kw = None ->
   min_std (bind_args d kw) = Some 1e-6 /\
   (std_parameterization (bind_args d kw) = "exp" ->
    exists self, new d kw = inl self /\ _min_std_param self = Some (ln 1e-6))) /\
  (forall self, new d kw = inl self ->
   (_min_std_param self = None <-> kw_min_std kw = Some None)) /\
  (kw_max_std kw = None ->
   max_std (bind_args d kw) = None /\
   forall self, new d kw = inl self ->
     _max_std_param self = None /\
     forall t, std_limits self t =
               match _min_std_param self with
               | Some lo => tf_maximum t lo
               | None => t
               end).
Proof.
  unfold new. split; [|split].
  - intros Hkw.
    assert (Hmin : min_std (bind_args d kw) = Some 1e-6)
      by (simpl; rewrite Hkw; reflexivity).
    split; [exact Hmin|]. intros Hmode.
    destruct (proj1 (derived_bounds_follow_parameterization_aux (bind_args d kw)) Hmode)
      as [self [Hc [_ [Hlo _]]]].
    exists self. split; [exact Hc|]. rewrite Hlo, Hmin. reflexivity.
  - intros self Hc.
    destruct (constructed_bounds _ _ Hc) as [f [_ [Hlo _]]].
    rewrite Hlo. simpl. destruct (kw_min_std kw) as [[v|]|]; simpl;
      split; intros H; try discriminate; reflexivity.
  - intros Hkw.
    assert (Hmax : max_std (bind_args d kw) = None)
      by (simpl; rewrite Hkw; reflexivity).
    split; [exact Hmax|]. intros self Hc.
    destruct (constructed_bounds _ _ Hc) as [f [_ [_ Hhi]]].
    rewrite Hmax in Hhi. simpl in Hhi.
    split; [exact Hhi|]. intros t. now apply std_limits_without_upper.
Qed.

Lemma min_std_defaults_to_a_lower_bound_witness :
  exists self, new 2 no_kwargs = inl self /\ _min_std_param self = Some (ln 1e-6).
Proof.
  apply (proj2 (proj1 (min_std_defaults_to_a_lower_bound 2 no_kwargs) eq_refl)).
  reflexivity.
Defined.

(** ** Elementwise operations *)

Lemma tmap_id (t : Tensor) : tmap (fun x => x) t = t.
Proof.
  destruct t as [w rs]. unfold tmap. simpl. f_equal.
  induction rs as [|r rs IH]; simpl; [reflexivity|].
  rewrite map_id, IH. reflexivity.
Qed.

Lemma tmap_tmap (f g : R -> R) (t : Tensor) :
  tmap f (tmap g t) = tmap (fun x => f (g x)) t.
Proof.
  unfold tmap. simpl. f_equal. rewrite map_map.
  apply map_ext. intros r. apply map_map.
Qed.

Lemma tmap_ext (f g : R -> R) (t : Tensor) :
  (forall x, f x = g x) -> tmap f t = tmap g t.
Proof.
  intros H. unfold tmap. f_equal.
  apply map_ext. intros r. apply map_ext. exact H.
Qed.

(** ** StdClamp *)

Lemma std_limits_elementwise (self : GaussianMLPModel) (t : Tensor) :
  std_limits self t = tmap (clamp (_min_std_param self) (_max_std_param self)) t.
Proof.
  unfold std_limits, clamp, tf_maximum, tf_minimum.
  destruct (_min_std_param self) as [lo|], (_max_std_param self) as [hi|].
  - apply tmap_tmap.
  - reflexivity.
  - reflexivity.
  - symmetry. apply tmap_id.
Qed.

Ltac minmax := unfold Rmax, Rmin; repeat destruct Rle_dec; try lra.

Lemma clamp_idempotent (lo hi : pyfloat) (x : R) :
  clamp lo hi (clamp lo hi x) = clamp lo hi x.
Proof. unfold clamp. destruct lo as [l|], hi as [h|]; minmax. Qed.

Lemma clamp_inverted_bounds (lo hi x : R) :
  lo > hi -> clamp (Some lo) (Some hi) x = hi.
Proof. intros H. unfold clamp. minmax. Qed.

Lemma exp_5_above_10 : 10 < exp 5.
Proof.
  replace 5 with (2.5 + 2.5) by lra. rewrite exp_plus.
  assert (H : 1 + 2.5 < exp 2.5) by (apply exp_ineq1; lra).
  nra.
Qed.

Lemma ln_tenth_above_minus_5 : -5.0 < ln 0.1.
Proof.
  replace (-5.0) with (ln (exp (Ropp 5))) by (rewrite ln_exp; lra).
  apply ln_increasing; [apply exp_pos|].
  rewrite exp_Ropp. replace 0.1 with (/ 10) by lra.
  apply Rinv_lt_contravar; [|apply exp_5_above_10].
  pose proof exp_5_above_10. nra.
Qed.

(** C2: StdClamp applies the lower bound and then the upper bound to every
    entry, each only when it is configured.  When both are configured and
    [min_std_param > max_std_param], every entry of the result is
    [max_std_param], whatever the input, and nothing is raised ([std_limits]
    is a total function).  A model built with [min_std = 0.1] in mode [exp]
    (and no [max_std]) clamps a raw std parameter of [-5.0] to [ln(0.1)]. *)
Theorem std_clamp_lower_then_upper (self : GaussianMLPModel) :
  (forall t,
     std_limits self t =
       tmap (fun x =>
               let x := match _min_std_param self with
                        | Some lo => Rmax x lo
                        | None => x
                        end in
               match _max_std_param self with
               | Some hi => Rmin x hi
               | None => x
               end) t) /\
  (forall lo hi t,
     _min_std_param self = Some lo ->
     _max_std_param self = Some hi ->
     lo > hi ->
     std_limits self t = tmap (fun _ => hi) t) /\
  (forall p,
     construct p = inl self ->
     std_parameterization p = "exp" ->
     min_std p = Some 0.1 ->
     max_std p = None ->
     _min_std_param self = Some (ln 0.1) /\
     std_limits self (mk_tensor 1 [[-5.0]]) = mk_tensor 1 [[ln 0.1]]).
Proof.
  split; [|split].
  - intros t. apply std_limits_elementwise.
  - intros lo hi t Hlo Hhi Hinv.
    rewrite std_limits_elementwise, Hlo, Hhi.
    apply tmap_ext. intros x. now apply clamp_inverted_bounds.
  - intros p Hc Hmode Hmin Hmax.
    destruct (proj1 (derived_bounds_follow_parameterization_aux p) Hmode)
      as [s [Hs [_ [Hlo Hhi]]]].
    assert (s = self) by congruence. subst s.
    rewrite Hmin in Hlo. rewrite Hmax in Hhi. simpl in Hlo, Hhi.
    split; [exact Hlo|].
    rewrite std_limits_elementwise, Hlo, Hhi.
    unfold tmap, clamp. simpl. do 3 f_equal.
    apply Rmax_right. left. apply ln_tenth_above_minus_5.
Qed.

Lemma std_clamp_lower_then_upper_witness :
  std_limits inverted_model (mk_tensor 1 [[7]; [-7]]) =
  tmap (fun _ => ln 1) (mk_tensor 1 [[7]; [-7]]).
Proof.
  apply (proj1 (proj2 (std_clamp_lower_then_upper inverted_model)) (ln 2) (ln 1)).
  - reflexivity.
  - reflexivity.
  - apply ln_increasing; lra.
Defined.

(** C8: StdClamp is idempotent, for every input tensor and every
    configuration of the optional bounds. *)
Theorem std_clamp_idempotent (self : GaussianMLPModel) (t : Tensor) :
  std_limits self (std_limits self t) = std_limits self t.
Proof.
  rewrite !std_limits_elementwise, tmap_tmap.
  apply tmap_ext. intros x. apply clamp_idempotent.
Qed.

(** ** LogStdConverter *)

(** C3: in mode [exp] the log-std is the std parameter itself, so the
    converter returns a clamped value unchanged; in mode [softplus] every
    entry [x] becomes [ln(ln(1 + exp(x)))]. *)
Theorem log_std_converter (self : GaussianMLPModel) (t : Tensor) :
  (_std_parameterization self = "exp" ->
   to_log_std self t = t /\
   to_log_std self (std_limits self t) = std_limits self t) /\
  (_std_parameterization self = "softplus" ->
   to_log_std self t = tmap (fun x => ln (ln (1 + exp x))) t).
Proof.
  unfold to_log_std. split; intros Hmode; rewrite Hmode; simpl.
  - split; reflexivity.
  - unfold tf_log, tf_exp, scalar_plus. now rewrite !tmap_tmap.
Qed.

Lemma log_std_converter_witness :
  to_log_std softplus_model (mk_tensor 1 [[0]]) =
  tmap (fun x => ln (ln (1 + exp x))) (mk_tensor 1 [[0]]).
Proof.
  apply (proj2 (log_std_converter softplus_model (mk_tensor 1 [[0]]))).
  reflexivity.
Defined.

(** ** MeanStdNetworkFactory *)

Section BuildFacts.

Variable mlp_net : list string -> mlp_call -> Tensor.
Variable variable_value : list string -> nat -> initializer -> bool -> list R.

Lemma dist_params_shared (self : GaussianMLPModel) (x : Tensor) (g : graph) :
  _std_share_network self = true ->
  let s := scope g ++ ["dist_params"] in
  let net := mlp_net s (shared_mlp_call self x) in
  dist_params mlp_net variable_value self x g =
    ((slice_upto (_output_dim self) net, slice_from (_output_dim self) net),
     mk_graph (scope g) (calls g ++ [CallMlp s (shared_mlp_call self x)]) (random g)).
Proof.
  intros Hshare. unfold dist_params. rewrite Hshare. reflexivity.
Qed.

Lemma dist_params_adaptive (self : GaussianMLPModel) (x : Tensor) (g : graph) :
  _std_share_network self = false ->
  _adaptive_std self = true ->
  let s := scope g ++ ["dist_params"] in
  dist_params mlp_net variable_value self x g =
    ((mlp_net s (mean_mlp_call self x), mlp_net s (std_mlp_call self x)),
     mk_graph (scope g)
       ((calls g ++ [CallMlp s (mean_mlp_call self x)])
          ++ [CallMlp s (std_mlp_call self x)])
       (random g)).
Proof.
  intros Hshare Hadapt. unfold dist_params. rewrite Hshare, Hadapt. reflexivity.
Qed.

Lemma dist_params_fixed (self : GaussianMLPModel) (x : Tensor) (g : graph) :
  _std_share_network self = false ->
  _adaptive_std self = false ->
  let s := scope g ++ ["dist_params"] in
  let v := variable_value (s ++ ["log_std_network"]) (_output_dim self)
             (constant_initializer (cv_scalar (_init_std_param self)))
             (_learn_std self) in
  dist_params mlp_net variable_value self x g =
    ((mlp_net s (mean_mlp_call self x),
      mk_tensor (_output_dim self) (repeat v (batch_size x))),
     mk_graph (scope g)
       ((calls g ++ [CallMlp s (mean_mlp_call self x)])
          ++ [CallParameter s (std_parameter_call self x)])
       (random g)).
Proof.
  intros Hshare Hadapt. unfold dist_params. rewrite Hshare, Hadapt. reflexivity.
Qed.

(** The factory leaves the scope and the random stream as it found them. *)
Lemma dist_params_graph (self : GaussianMLPModel) (x : Tensor) (g : graph) :
  scope (snd (dist_params mlp_net variable_value self x g)) = scope g /\
  random (snd (dist_params mlp_net variable_value self x g)) = random g.
Proof.
  destruct (_std_share_network self) eqn:Hshare.
  - rewrite dist_params_shared by assumption. split; reflexivity.
  - destruct (_adaptive_std self) eqn:Hadapt.
    + rewrite dist_params_adaptive by assumption. split; reflexivity.
    + rewrite dist_params_fixed by assumption. split; reflexivity.
Qed.

(** [_build] after the factory: clamp, convert, draw, combine. *)
Lemma build_unfold (self : GaussianMLPModel) (x : Tensor) (g : graph) :
  let r := dist_params mlp_net variable_value self x g in
  let mean := fst (fst r) in
  let std_param := std_limits self (snd (fst r)) in
  let log_std := to_log_std self std_param in
  let rnd := map (random g) (seq 0 (width mean)) in
  _build mlp_net variable_value self x g =
    ((tensor_add (broadcast_mul rnd (tf_exp log_std)) mean,
      mean, log_std, std_param, mk_DiagonalGaussian (_output_dim self)),
     mk_graph (scope g) (calls (snd r)) (fun i => random g (width mean + i)%nat)).
Proof.
  intros r mean std_param log_std rnd.
  destruct (dist_params_graph self x g) as [Hs Hr].
  unfold _build, bind. fold r in Hs, Hr |- *.
  subst mean std_param log_std rnd.
  destruct r as [[mean raw] g1]. simpl in *.
  unfold variable_scope, ret, tf_random_normal. simpl.
  rewrite Hs, Hr, Nat.mul_1_r. reflexivity.
Qed.

End BuildFacts.

(** ** Shapes *)

Lemma nth_map_fixed {A} (f : A -> A) (l : list A) (d : A) (i : nat) :
  f d = d -> nth i (map f l) d = f (nth i l d).
Proof.
  intros Hd. rewrite <- Hd at 1. apply map_nth.
Qed.

Lemma entry_slice_upto (n : nat) (t : Tensor) (i j : nat) :
  (j < n)%nat -> entry (slice_upto n t) i j = entry t i j.
Proof.
  intros Hj. unfold entry, slice_upto. simpl.
  rewrite nth_map_fixed by apply firstn_nil.
  rewrite nth_firstn.
  apply Nat.ltb_lt in Hj. rewrite Hj. reflexivity.
Qed.

Lemma entry_slice_from (n : nat) (t : Tensor) (i j : nat) :
  entry (slice_from n t) i j = entry t i (n + j).
Proof.
  unfold entry, slice_from. simpl.
  rewrite nth_map_fixed by apply skipn_nil.
  apply nth_skipn.
Qed.

Lemma slice_upto_shape (n : nat) (t : Tensor) :
  width t = (n * 2)%nat -> well_shaped t ->
  width (slice_upto n t) = n /\
  batch_size (slice_upto n t) = batch_size t /\
  well_shaped (slice_upto n t).
Proof.
  intros Hw Ht. unfold slice_upto, batch_size, well_shaped in *. simpl.
  rewrite Hw in *. repeat split; [lia | apply length_map |].
  apply Forall_map. eapply Forall_impl; [|exact Ht].
  intros r Hr. simpl in Hr. rewrite length_firstn, Hr. reflexivity.
Qed.

Lemma slice_from_shape (n : nat) (t : Tensor) :
  width t = (n * 2)%nat -> well_shaped t ->
  width (slice_from n t) = n /\
  batch_size (slice_from n t) = batch_size t /\
  well_shaped (slice_from n t).
Proof.
  intros Hw Ht. unfold slice_from, batch_size, well_shaped in *. simpl.
  rewrite Hw in *. repeat split; [lia | apply length_map |].
  apply Forall_map. eapply Forall_impl; [|exact Ht].
  intros r Hr. simpl in Hr. rewrite length_skipn, Hr. reflexivity.
Qed.

Lemma tmap_shape (f : R -> R) (t : Tensor) :
  width (tmap f t) = width t /\
  batch_size (tmap f t) = batch_size t /\
  (well_shaped t -> well_shaped (tmap f t)).
Proof.
  unfold tmap, batch_size, well_shaped. simpl.
  repeat split; [apply length_map|].
  intros Ht. apply Forall_map. eapply Forall_impl; [|exact Ht].
  intros r Hr. simpl in *. now rewrite length_map.
Qed.

Lemma entry_tmap (f : R -> R) (t : Tensor) (i j : nat) :
  (i < batch_size t)%nat -> (j < List.length (nth i (rows t) []))%nat ->
  entry (tmap f t) i j = f (entry t i j).
Proof.
  intros Hi Hj. unfold entry, tmap, batch_size in *. simpl.
  rewrite (nth_indep _ [] (map f [])) by (now rewrite length_map).
  rewrite map_nth.
  rewrite (nth_indep _ 0 (f 0)) by (now rewrite length_map).
  apply map_nth.
Qed.

Lemma well_shaped_row (t : Tensor) (i : nat) :
  well_shaped t -> (i < batch_size t)%nat ->
  List.length (nth i (rows t) []) = width t.
Proof.
  intros Ht Hi. unfold well_shaped in Ht.
  rewrite Forall_nth in Ht. now apply Ht.
Qed.

Lemma linear_net_honours_shape : mlp_honours_shape linear_net.
Proof.
  intros s c. unfold linear_net, batch_size, well_shaped. simpl.
  repeat split; [apply length_map|].
  apply Forall_map, Forall_forall. intros r _.
  now rewrite length_map, length_seq.
Qed.

Lemma untrained_value_honours_length : variable_honours_length untrained_value.
Proof. intros s n i t. apply repeat_length. Qed.

Lemma nth_map2 {A B C} (f : A -> B -> C) (xs : list A) (ys : list B)
    (i : nat) (da : A) (db : B) (dc : C) :
  (i < List.length xs)%nat -> (i < List.length ys)%nat ->
  nth i (map2 f xs ys) dc = f (nth i xs da) (nth i ys db).
Proof.
  revert ys i. induction xs as [|a xs IH]; intros [|b ys] [|i] Hx Hy;
    simpl in *; try lia; [reflexivity|].
  apply IH; lia.
Qed.

Section FactoryShapes.

Variable mlp_net : list string -> mlp_call -> Tensor.
Variable variable_value : list string -> nat -> initializer -> bool -> list R.
Hypothesis mlp_shape : mlp_honours_shape mlp_net.
Hypothesis variable_length : variable_honours_length variable_value.

(** The guarantee of the factory: whichever branch ran, the mean and the
    raw std parameter are [batch, output_dim]. *)
Lemma dist_params_shapes (self : GaussianMLPModel) (x : Tensor) (g : graph) :
  let r := fst (dist_params mlp_net variable_value self x g) in
  (width (fst r) = _output_dim self /\
   batch_size (fst r) = batch_size x /\
   well_shaped (fst r)) /\
  (width (snd r) = _output_dim self /\
   batch_size (snd r) = batch_size x /\
   well_shaped (snd r)).
Proof.
  destruct (_std_share_network self) eqn:Hshare.
  - rewrite dist_params_shared by assumption. simpl.
    destruct (mlp_shape (scope g ++ ["dist_params"]) (shared_mlp_call self x))
      as [Hw [Hb Hs]]. simpl in Hw, Hb.
    split.
    + rewrite <- Hb. now apply slice_upto_shape.
    + rewrite <- Hb. now apply slice_from_shape.
  - destruct (mlp_shape (scope g ++ ["dist_params"]) (mean_mlp_call self x))
      as [Hw [Hb Hs]]. simpl in Hw, Hb.
    destruct (_adaptive_std self) eqn:Hadapt.
    + rewrite dist_params_adaptive by assumption. simpl.
      split; [auto|]. apply (mlp_shape _ (std_mlp_call self x)).
    + rewrite dist_params_fixed by assumption. simpl.
      split; [auto|]. unfold batch_size, well_shaped. simpl.
      repeat split; [apply repeat_length|].
      apply Forall_forall. intros r Hr. apply repeat_spec in Hr. subst r.
      apply variable_length.
Qed.

End FactoryShapes.

(** C5: with [std_share_network] the factory makes exactly one
    subnetwork call, of output width [2 * output_dim], whose output-bias
    initializer is the constant [output_dim] zeros followed by [output_dim]
    copies of [init_std_param]; it splits the output along the last axis,
    the first [output_dim] components being the mean and the remaining
    [output_dim] the raw std parameter, and when the builder honours the
    requested width both halves have width [output_dim]. *)
Theorem shared_network_is_one_mlp_split
    (mlp_net : list string -> mlp_call -> Tensor)
    (variable_value : list string -> nat -> initializer -> bool -> list R)
    (self : GaussianMLPModel) (x : Tensor) (g : graph) :
  _std_share_network self = true ->
  let d := _output_dim self in
  let s := scope g ++ ["dist_params"] in
  let c := shared_mlp_call self x in
  let net := mlp_net s c in
  let r := dist_params mlp_net variable_value self x g in
  let mean := fst (fst r) in
  let raw_std_param := snd (fst r) in
  calls (snd r) = calls g ++ [CallMlp s c] /\
  mlp_input c = x /\
  mlp_output_dim c = (2 * d)%nat /\
  mlp_output_b_init c =
    constant_initializer
      (cv_array (repeat (Some 0) d ++ repeat (_init_std_param self) d)) /\
  mean = slice_upto d net /\
  raw_std_param = slice_from d net /\
  (forall i j, (j < d)%nat -> entry mean i j = entry net i j) /\
  (forall i j, entry raw_std_param i j = entry net i (d + j)) /\
  (mlp_honours_shape mlp_net ->
   width net = (2 * d)%nat /\
   width mean = d /\ well_shaped mean /\
   width raw_std_param = d /\ well_shaped raw_std_param).
Proof.
  intros Hshare d s c net r mean raw_std_param.
  subst r mean raw_std_param.
  rewrite dist_params_shared by assumption. simpl.
  fold d s c net.
  split; [reflexivity|]. split; [reflexivity|].
  split; [subst d; simpl; lia|].
  split.
  { unfold c, shared_mlp_call, np_concatenate, np_zeros, np_full. simpl.
    now rewrite app_nil_r. }
  split; [reflexivity|]. split; [reflexivity|].
  split; [intros i j Hj; now apply entry_slice_upto|].
  split; [intros i j; apply entry_slice_from|].
  intros Hmlp. destruct (Hmlp s c) as [Hw [_ Hs]].
  fold net in Hw, Hs. change (mlp_output_dim c) with (d * 2)%nat in Hw.
  destruct (slice_upto_shape d net Hw Hs) as [Hmw [_ Hms]].
  destruct (slice_from_shape d net Hw Hs) as [Hrw [_ Hrs]].
  repeat split; auto. lia.
Qed.

Lemma shared_network_is_one_mlp_split_witness :
  calls (snd (dist_params linear_net untrained_value shared_model two_states
                          empty_graph)) =
  calls empty_graph
    ++ [CallMlp (scope empty_graph ++ ["dist_params"])
                (shared_mlp_call shared_model two_states)].
Proof.
  exact (proj1 (shared_network_is_one_mlp_split linear_net untrained_value
                  shared_model two_states empty_graph eq_refl)).
Defined.

Lemma build_std_param
    (mlp_net : list string -> mlp_call -> Tensor)
    (variable_value : list string -> nat -> initializer -> bool -> list R)
    (self : GaussianMLPModel) (x : Tensor) (g : graph) :
  out_std_param (fst (_build mlp_net variable_value self x g)) =
  std_limits self (snd (fst (dist_params mlp_net variable_value self x g))).
Proof. rewrite build_unfold. reflexivity. Qed.

(** C6: with neither a shared network nor an adaptive std, the factory
    builds the mean network and, for the std, makes one [parameter] call
    and no network: a vector of length [output_dim], trainable exactly when
    [learn_std] is, initialized to [init_std_param], and broadcast across
    the batch of [state_input].  The std parameter is
    one row repeated: for a given value of the variable, all rows of
    [std_param] are equal, within a batch and between two different state
    inputs. *)
Theorem fixed_std_parameter_is_constant_over_batch
    (mlp_net : list string -> mlp_call -> Tensor)
    (variable_value : list string -> nat -> initializer -> bool -> list R)
    (self : GaussianMLPModel) (x : Tensor) (g : graph) :
  _std_share_network self = false ->
  _adaptive_std self = false ->
  let d := _output_dim self in
  let s := scope g ++ ["dist_params"] in
  let init := constant_initializer (cv_scalar (_init_std_param self)) in
  let v := variable_value (s ++ ["log_std_network"]) d init (_learn_std self) in
  let r := dist_params mlp_net variable_value self x g in
  calls (snd r) =
    calls g
      ++ [CallMlp s (mean_mlp_call self x);
          CallParameter s
            (mk_parameter_call x d init (_learn_std self) "log_std_network")] /\
  snd (fst r) = mk_tensor d (repeat v (batch_size x)) /\
  out_std_param (fst (_build mlp_net variable_value self x g)) =
    mk_tensor d
      (repeat (map (clamp (_min_std_param self) (_max_std_param self)) v)
              (batch_size x)) /\
  (forall x' row row',
     In row (rows (out_std_param (fst (_build mlp_net variable_value self x g)))) ->
     In row' (rows (out_std_param (fst (_build mlp_net variable_value self x' g)))) ->
     row = row') /\
  (variable_honours_length variable_value -> List.length v = d).
Proof.
  intros Hshare Hadapt d s init v r.
  assert (Hstd : forall y,
             out_std_param (fst (_build mlp_net variable_value self y g)) =
             mk_tensor d
               (repeat (map (clamp (_min_std_param self) (_max_std_param self)) v)
                       (batch_size y))).
  { intros y. rewrite build_std_param, dist_params_fixed by assumption.
    simpl. rewrite std_limits_elementwise. unfold tmap. simpl.
    now rewrite map_repeat. }
  subst r. rewrite dist_params_fixed by assumption. simpl.
  split; [|split; [|split; [|split]]].
  - now rewrite <- app_assoc.
  - reflexivity.
  - apply Hstd.
  - intros x' row row' Hrow Hrow'.
    rewrite Hstd in Hrow, Hrow'. simpl in Hrow, Hrow'.
    apply repeat_spec in Hrow, Hrow'. congruence.
  - intros Hlen. apply Hlen.
Qed.

Lemma fixed_std_parameter_is_constant_over_batch_witness :
  out_std_param
    (fst (_build linear_net untrained_value default_model two_states empty_graph)) =
  mk_tensor 2
    (repeat (map (clamp (_min_std_param default_model)
                        (_max_std_param default_model))
                 (untrained_value ["dist_params"; "log_std_network"] 2
                    (constant_initializer
                       (cv_scalar (_init_std_param default_model)))
                    (_learn_std default_model)))
            (batch_size two_states)).
Proof.
  exact (proj1 (proj2 (proj2
           (fixed_std_parameter_is_constant_over_batch linear_net untrained_value
              default_model two_states empty_graph eq_refl eq_refl)))).
Defined.

(** C10: with [std_share_network] the shared branch is the one taken
    whatever [adaptive_std] says, and neither [adaptive_std] nor the std
    network's hidden sizes, nonlinearities and initializers reach the
    result: changing them changes neither the (mean, raw std parameter)
    pair, nor the calls made, nor the rest of the forward output. *)
Theorem shared_network_ignores_std_network_options
    (mlp_net : list string -> mlp_call -> Tensor)
    (variable_value : list string -> nat -> initializer -> bool -> list R)
    (self : GaussianMLPModel) (x : Tensor) (g : graph)
    (adaptive : bool) (sizes : list nat) (hidden_nl : nonlinearity)
    (hidden_w hidden_b : initializer) (output_nl : nonlinearity)
    (output_w output_b : initializer) :
  _std_share_network self = true ->
  let self' := set_std_network_options self adaptive sizes hidden_nl hidden_w
                 hidden_b output_nl output_w output_b in
  let net := mlp_net (scope g ++ ["dist_params"]) (shared_mlp_call self x) in
  fst (dist_params mlp_net variable_value self' x g) =
    (slice_upto (_output_dim self) net, slice_from (_output_dim self) net) /\
  dist_params mlp_net variable_value self' x g =
    dist_params mlp_net variable_value self x g /\
  _build mlp_net variable_value self' x g =
    _build mlp_net variable_value self x g.
Proof.
  intros Hshare self' net.
  assert (Hshare' : _std_share_network self' = true) by exact Hshare.
  assert (Hd : dist_params mlp_net variable_value self' x g =
               dist_params mlp_net variable_value self x g).
  { rewrite !dist_params_shared by assumption. reflexivity. }
  split; [|split].
  - rewrite Hd, dist_params_shared by assumption. reflexivity.
  - exact Hd.
  - rewrite !build_unfold, Hd. reflexivity.
Qed.

Lemma shared_network_ignores_std_network_options_witness :
  _build linear_net untrained_value
    (set_std_network_options shared_model true [64%nat] None zeros_initializer
       zeros_initializer (Some tf_nn_tanh) zeros_initializer
       glorot_uniform_initializer)
    two_states empty_graph =
  _build linear_net untrained_value shared_model two_states empty_graph.
Proof.
  exact (proj2 (proj2
           (shared_network_ignores_std_network_options linear_net untrained_value
              shared_model two_states empty_graph true [64%nat] None
              zeros_initializer zeros_initializer (Some tf_nn_tanh)
              zeros_initializer glorot_uniform_initializer eq_refl))).
Defined.

(** ** ReparameterizedSampler *)

Lemma std_limits_shape (self : GaussianMLPModel) (t : Tensor) :
  width (std_limits self t) = width t /\
  batch_size (std_limits self t) = batch_size t /\
  (well_shaped t -> well_shaped (std_limits self t)).
Proof. rewrite std_limits_elementwise. apply tmap_shape. Qed.

Lemma to_log_std_shape (self : GaussianMLPModel) (t : Tensor) :
  width (to_log_std self t) = width t /\
  batch_size (to_log_std self t) = batch_size t /\
  (well_shaped t -> well_shaped (to_log_std self t)).
Proof.
  unfold to_log_std. destruct (_ =? _)%string; [tauto|].
  unfold tf_log, tf_exp, scalar_plus. rewrite !tmap_tmap. apply tmap_shape.
Qed.

Lemma map2_nil_r {A B C} (f : A -> B -> C) (xs : list A) : map2 f xs [] = [].
Proof. destruct xs; reflexivity. Qed.

Lemma length_map2 {A B C} (f : A -> B -> C) (xs : list A) (ys : list B) :
  List.length (map2 f xs ys) = Nat.min (List.length xs) (List.length ys).
Proof.
  revert ys. induction xs as [|a xs IH]; intros [|b ys]; simpl; auto.
Qed.

(** One row of [rnd * tf.exp(log_std) + mean]. *)
Lemma row_sample (rnd : list R) (log_std mean : Tensor) (i : nat) :
  batch_size log_std = batch_size mean ->
  (i < batch_size mean)%nat ->
  nth i (rows (tensor_add (broadcast_mul rnd (tf_exp log_std)) mean)) [] =
  map2 Rplus (map2 Rmult rnd (map exp (nth i (rows log_std) [])))
       (nth i (rows mean) []).
Proof.
  unfold batch_size. intros Hb Hi.
  unfold tensor_add, broadcast_mul, tf_exp, tmap. simpl.
  rewrite (nth_map2 _ _ _ _ [] [] []) by (rewrite ?length_map; lia).
  f_equal.
  rewrite nth_map_fixed by apply map2_nil_r.
  f_equal. now apply nth_map_fixed.
Qed.





(** ** Worked examples *)

(** The default model on a batch of two states, before any training: the
    std parameter is [ln 1.0 = 0] in every entry (the lower bound [ln 1e-6]
    is below it), and so is the log-std. *)
Example default_model_log_std_is_zero :
  out_log_std
    (fst (_build linear_net untrained_value default_model two_states empty_graph)) =
  mk_tensor 2 [[0; 0]; [0; 0]].
Proof.
  rewrite build_unfold. simpl.
  unfold to_log_std, std_limits, tf_maximum, tmap, untrained_value. simpl.
  unfold np_log.
  assert (H0 : ln 1.0 = 0) by (replace 1.0 with 1 by lra; apply ln_1).
  assert (Hlt : ln 1e-6 < ln 1.0) by (apply ln_increasing; lra).
  rewrite Rmax_left by lra. rewrite H0. reflexivity.
Qed.

(** The shared network on the same batch: one call of width four, whose
    bias is [0, 0, ln 1.0, ln 1.0]; the mean is the first two columns and
    the raw std parameter the last two. *)
Example shared_model_split :
  fst (dist_params linear_net untrained_value shared_model two_states empty_graph) =
  (mk_tensor 2 [[1 + (2 + (3 + 0)) + 0; 1 + (2 + (3 + 0)) + 0];
                [4 + (5 + (6 + 0)) + 0; 4 + (5 + (6 + 0)) + 0]],
   mk_tensor 2 [[1 + (2 + (3 + 0)) + ln 1.0; 1 + (2 + (3 + 0)) + ln 1.0];
                [4 + (5 + (6 + 0)) + ln 1.0; 4 + (5 + (6 + 0)) + ln 1.0]]).
Proof. reflexivity. Qed.

(** The sample of the default model at row 0, column 1: the second draw of
    the stream times [exp 0], plus the mean. *)
Example default_model_sample_entry :
  entry (out_sample
           (fst (_build linear_net untrained_value default_model two_states
                        empty_graph))) 0 1 =
  7.
Proof.
  rewrite build_unfold.
  unfold entry, to_log_std, std_limits, tf_maximum, tf_exp, tmap, untrained_value.
  simpl. unfold np_log.
  assert (H0 : ln 1.0 = 0) by (replace 1.0 with 1 by lra; apply ln_1).
  assert (Hlt : ln 1e-6 < ln 1.0) by (apply ln_increasing; lra).
  rewrite Rmax_left by lra. rewrite H0, exp_0. lra.
Qed.

(** * Further properties of the code *)

(** ** The two parameterizations as maps on the reals *)

Lemma exp_le (x y : R) : x <= y -> exp x <= exp y.
Proof.
  intros [H | ->]; [left; now apply exp_increasing | right; reflexivity].
Qed.

Lemma ln_le (x y : R) : 0 < x -> x <= y -> ln x <= ln y.
Proof.
  intros Hx [H | ->]; [left; now apply ln_increasing | right; reflexivity].
Qed.

Lemma exp_above_1 (v : R) : 0 < v -> 1 < exp v.
Proof. intros Hv. rewrite <- exp_0. now apply exp_increasing. Qed.

Lemma softplus_pos (x : R) : 0 < softplus x.
Proof.
  unfold softplus. rewrite <- ln_1.
  apply ln_increasing; [lra|]. pose proof (exp_pos x). lra.
Qed.

Lemma inv_softplus_le (a b : R) :
  0 < a -> a <= b -> inv_softplus a <= inv_softplus b.
Proof.
  intros Ha Hab. unfold inv_softplus, np_log, np_exp.
  pose proof (exp_above_1 a Ha). pose proof (exp_le a b Hab).
  apply ln_le; lra.
Qed.

Lemma std_to_param_le (mode : string) (a b : R) :
  0 < a -> a <= b -> std_to_param mode a <= std_to_param mode b.
Proof.
  intros Ha Hab. unfold std_to_param, np_log.
  destruct (mode =? "exp")%string; [now apply ln_le | now apply inv_softplus_le].
Qed.

(** What a constructed object holds, with the transform named by mode. *)
Lemma constructed_attributes (p : params) (self : GaussianMLPModel) :
  construct p = inl self ->
  let mode := std_parameterization p in
  _std_parameterization self = mode /\
  _output_dim self = output_dim p /\
  _min_std self = min_std p /\
  _max_std self = max_std p /\
  _init_std_param self = Some (std_to_param mode (init_std p)) /\
  _min_std_param self = option_map (std_to_param mode) (min_std p) /\
  _max_std_param self = option_map (std_to_param mode) (max_std p).
Proof.
  intros Hc mode. subst mode.
  destruct (constructed_mode p self Hc) as [Hm Hi].
  unfold __init__ in Hi. rewrite store_attributes_mode in Hi.
  unfold std_to_param.
  destruct Hm as [Hm | Hm]; rewrite Hm in *; simpl in Hi;
    injection Hi as <-;
    destruct (min_std p) eqn:Hlo, (max_std p) eqn:Hhi; simpl;
    rewrite ?Hm, ?Hlo, ?Hhi; auto 10.
Qed.

(** The std read back from a parameter tensor: [tf.exp] of the log-std. *)
Lemma exp_to_log_std (self : GaussianMLPModel) (t : Tensor) :
  tf_exp (to_log_std self t) = tmap (param_to_std (_std_parameterization self)) t.
Proof.
  unfold to_log_std, param_to_std, tf_exp, tf_log, scalar_plus.
  destruct (_std_parameterization self =? "exp")%string; [reflexivity|].
  rewrite !tmap_tmap. apply tmap_ext. intros x.
  apply exp_ln. apply softplus_pos.
Qed.

(** X1: the std the sampler multiplies the noise by, [tf.exp(log_std)], is
    [exp] of the std parameter in mode [exp]; in the other branch of lines
    197-200 it is [log(1 + exp(x))] of it, the softplus the class docstring
    names. *)
Theorem std_is_exp_or_softplus_of_parameter (self : GaussianMLPModel) (t : Tensor) :
  (_std_parameterization self = "exp" ->
   tf_exp (to_log_std self t) = tmap exp t) /\
  (_std_parameterization self <> "exp" ->
   tf_exp (to_log_std self t) = tmap (fun x => ln (1 + exp x)) t).
Proof.
  rewrite exp_to_log_std. unfold param_to_std. split; intros Hmode.
  - rewrite Hmode. reflexivity.
  - apply String.eqb_neq in Hmode. rewrite Hmode. reflexivity.
Qed.

Lemma std_is_exp_or_softplus_of_parameter_witness :
  tf_exp (to_log_std softplus_model raw_params) =
  tmap (fun x => ln (1 + exp x)) raw_params.
Proof.
  apply (proj2 (std_is_exp_or_softplus_of_parameter softplus_model raw_params)).
  discriminate.
Defined.

(** ** What the clamp guarantees *)

Lemma all_entries_tmap (P Q : R -> Prop) (f : R -> R) (t : Tensor) :
  (forall x, P x -> Q (f x)) -> all_entries P t -> all_entries Q (tmap f t).
Proof.
  intros Hf Ht. unfold all_entries, tmap in *. simpl.
  apply Forall_map. eapply Forall_impl; [|exact Ht].
  intros r Hr. apply Forall_map. eapply Forall_impl; [|exact Hr]. exact Hf.
Qed.

Lemma all_entries_true (t : Tensor) : all_entries (fun _ => True) t.
Proof.
  unfold all_entries. apply Forall_forall. intros r _.
  apply Forall_forall. auto.
Qed.

Lemma tmap_fixed (P : R -> Prop) (f : R -> R) (t : Tensor) :
  (forall x, P x -> f x = x) -> all_entries P t -> tmap f t = t.
Proof.
  intros Hf Ht. destruct t as [w rs]. unfold all_entries, tmap in *. simpl in *.
  f_equal. induction Ht as [|r rs Hr _ IH]; simpl; [reflexivity|].
  rewrite IH. f_equal.
  induction Hr as [|x r Hx _ IHr]; simpl; [reflexivity|].
  now rewrite IHr, Hf.
Qed.

Lemma clamp_upper (lo : pyfloat) (h x : R) : clamp lo (Some h) x <= h.
Proof. unfold clamp. apply Rmin_r. Qed.

Lemma clamp_lower (l : R) (hi : pyfloat) (x : R) :
  (forall h, hi = Some h -> l <= h) -> l <= clamp (Some l) hi x.
Proof.
  intros Hord. unfold clamp. destruct hi as [h|]; [|apply Rmax_r].
  specialize (Hord h eq_refl). minmax.
Qed.

Lemma clamp_within (lo hi : pyfloat) (x : R) :
  within lo hi x -> clamp lo hi x = x.
Proof.
  unfold within, clamp. intros [Hlo Hhi].
  destruct lo as [l|], hi as [h|]; minmax.
Qed.

(** X2: after the clamp every entry of the std parameter is at most
    [max_std_param] when an upper bound is configured, whatever the lower
    bound; every entry is at least [min_std_param] when a lower bound is
    configured and the upper bound is absent or not below it. *)
Theorem std_limits_respects_bounds (self : GaussianMLPModel) (t : Tensor) :
  (forall hi,
     _max_std_param self = Some hi ->
     all_entries (fun v => v <= hi) (std_limits self t)) /\
  (forall lo,
     _min_std_param self = Some lo ->
     (forall hi, _max_std_param self = Some hi -> lo <= hi) ->
     all_entries (fun v => lo <= v) (std_limits self t)).
Proof.
  rewrite std_limits_elementwise. split.
  - intros hi Hhi. rewrite Hhi.
    apply (all_entries_tmap (fun _ => True)); [|apply all_entries_true].
    intros x _. apply clamp_upper.
  - intros lo Hlo Hord. rewrite Hlo.
    apply (all_entries_tmap (fun _ => True)); [|apply all_entries_true].
    intros x _. now apply clamp_lower.
Qed.

Lemma std_limits_respects_bounds_witness :
  all_entries (fun v => v <= ln 1) (std_limits inverted_model raw_params).
Proof.
  apply (proj1 (std_limits_respects_bounds inverted_model raw_params)).
  reflexivity.
Defined.

(** X3: a std parameter whose entries already lie within the configured
    bounds passes through the clamp unchanged. *)
Theorem std_limits_fixes_values_in_range (self : GaussianMLPModel) (t : Tensor) :
  all_entries (within (_min_std_param self) (_max_std_param self)) t ->
  std_limits self t = t.
Proof.
  intros Ht. rewrite std_limits_elementwise.
  eapply tmap_fixed; [|exact Ht]. intros x. apply clamp_within.
Qed.

Lemma within_bounded_exp (x : R) :
  ln 0.5 <= x <= ln 2 ->
  within (_min_std_param (bounded_model "exp"))
         (_max_std_param (bounded_model "exp")) x.
Proof. intros H. split; simpl; unfold np_log; lra. Qed.

Lemma ln_half_negative : ln 0.5 < 0.
Proof. rewrite <- ln_1. apply ln_increasing; lra. Qed.

Lemma ln_2_positive : 0 < ln 2.
Proof. rewrite <- ln_1. apply ln_increasing; lra. Qed.

Lemma std_limits_fixes_values_in_range_witness :
  std_limits (bounded_model "exp") (mk_tensor 2 [[0; ln 2]; [ln 0.5; 0]]) =
  mk_tensor 2 [[0; ln 2]; [ln 0.5; 0]].
Proof.
  apply (std_limits_fixes_values_in_range (bounded_model "exp")).
  pose proof ln_half_negative. pose proof ln_2_positive.
  unfold all_entries. simpl.
  repeat (apply Forall_cons || apply Forall_nil);
    apply within_bounded_exp; lra.
Defined.

Lemma bounded_model_constructed (mode : string) :
  mode = "exp" \/ mode = "softplus" ->
  construct (bind_args 2 (kwargs_bounded mode)) = inl (bounded_model mode).
Proof. intros [-> | ->]; reflexivity. Qed.

(** ** Order of the derived bounds *)

Lemma initial_parameter_within (p : params) (self : GaussianMLPModel) :
  construct p = inl self ->
  0 < init_std p ->
  (forall m, min_std p = Some m -> 0 < m <= init_std p) ->
  (forall M, max_std p = Some M -> init_std p <= M) ->
  _init_std_param self =
    Some (std_to_param (std_parameterization p) (init_std p)) /\
  within (_min_std_param self) (_max_std_param self)
         (std_to_param (std_parameterization p) (init_std p)).
Proof.
  intros Hc Hi Hmin Hmax.
  destruct (constructed_attributes p self Hc)
    as [_ [_ [_ [_ [Hinit [Hlo Hhi]]]]]].
  split; [exact Hinit|]. rewrite Hlo, Hhi. split.
  - destruct (min_std p) as [m|]; simpl; [|exact I].
    destruct (Hmin m eq_refl). now apply std_to_param_le.
  - destruct (max_std p) as [M|]; simpl; [|exact I].
    apply std_to_param_le; auto.
Qed.

(** X6: the transform of lines 99-110 keeps the order of its inputs.  When
    the caller's positive [min_std], [init_std], [max_std] satisfy
    [min_std <= init_std <= max_std] (each bound only if given), the
    constructed object has [min_std_param <= init_std_param <=
    max_std_param], in either mode. *)
Theorem parameterization_preserves_order (p : params) (self : GaussianMLPModel) :
  construct p = inl self ->
  0 < init_std p ->
  (forall m, min_std p = Some m -> 0 < m <= init_std p) ->
  (forall M, max_std p = Some M -> init_std p <= M) ->
  exists i,
    _init_std_param self = Some i /\
    (forall lo, _min_std_param self = Some lo -> lo <= i) /\
    (forall hi, _max_std_param self = Some hi -> i <= hi).
Proof.
  intros Hc Hi Hmin Hmax.
  destruct (initial_parameter_within p self Hc Hi Hmin Hmax) as [Hinit [Hlo Hhi]].
  eexists. split; [exact Hinit|].
  split; [intros lo E; rewrite E in Hlo | intros hi E; rewrite E in Hhi];
    assumption.
Qed.

Lemma parameterization_preserves_order_witness :
  exists i,
    _init_std_param (bounded_model "softplus") = Some i /\
    (forall lo, _min_std_param (bounded_model "softplus") = Some lo -> lo <= i) /\
    (forall hi, _max_std_param (bounded_model "softplus") = Some hi -> i <= hi).
Proof.
  apply (parameterization_preserves_order (bind_args 2 (kwargs_bounded "softplus"))).
  - apply bounded_model_constructed. now right.
  - simpl. lra.
  - intros m E. injection E as <-. simpl. lra.
  - intros M E. injection E as <-. simpl. lra.
Defined.

(** X8: construction succeeds exactly for the two mode strings ['exp'] and
    ['softplus'] (the comparison is the string equality of lines 99 and
    105).  On a constructed object [init_std_param] is always set, and a
    derived bound is [None] exactly when the stored raw bound is. *)
Theorem construction_succeeds_exactly_for_known_modes (p : params) :
  ((exists self, construct p = inl self) <->
   (std_parameterization p = "exp" \/ std_parameterization p = "softplus")) /\
  (forall self,
     construct p = inl self ->
     _init_std_param self <> None /\
     (_min_std_param self = None <-> _min_std self = None) /\
     (_max_std_param self = None <-> _max_std self = None)).
Proof.
  split.
  - split.
    + intros [self Hc]. apply (constructed_mode p self Hc).
    + intros [Hm | Hm].
      * destruct (init_exp p Hm) as [self [Hi _]].
        exists self. now apply construct_of_init.
      * destruct (init_softplus p Hm) as [self [Hi _]].
        exists self. now apply construct_of_init.
  - intros self Hc.
    destruct (constructed_attributes p self Hc)
      as [_ [_ [Hrlo [Hrhi [Hinit [Hlo Hhi]]]]]].
    rewrite Hinit, Hlo, Hhi, Hrlo, Hrhi.
    split; [discriminate|].
    split; [destruct (min_std p) | destruct (max_std p)]; simpl;
      split; intros H; try discriminate; reflexivity.
Qed.

Lemma construction_succeeds_exactly_for_known_modes_witness :
  exists self, construct (bind_args 2 (kwargs_with_mode "softplus")) = inl self.
Proof.
  apply (proj2 (proj1 (construction_succeeds_exactly_for_known_modes
                         (bind_args 2 (kwargs_with_mode "softplus"))))).
  right. reflexivity.
Defined.

(** ** Options the forward definition does not read *)

Lemma build_of_dist_params
    (mlp_net : list string -> mlp_call -> Tensor)
    (variable_value : list string -> nat -> initializer -> bool -> list R)
    (self self' : GaussianMLPModel) (x : Tensor) (g : graph) :
  dist_params mlp_net variable_value self' x g =
    dist_params mlp_net variable_value self x g ->
  _min_std_param self' = _min_std_param self ->
  _max_std_param self' = _max_std_param self ->
  _std_parameterization self' = _std_parameterization self ->
  _output_dim self' = _output_dim self ->
  _build mlp_net variable_value self' x g = _build mlp_net variable_value self x g.
Proof.
  intros Hd Hlo Hhi Hmode Hdim.
  rewrite !build_unfold, Hd.
  unfold std_limits, to_log_std. now rewrite Hlo, Hhi, Hmode, Hdim.
Qed.

(** X9: [learn_std] reaches the forward definition only through the
    [parameter] call of lines 178-184.  With a shared network or an
    adaptive std, changing [learn_std] changes nothing: no output and no
    logged call (so [learn_std=False] does not freeze a std network). *)
Theorem learn_std_is_read_only_by_the_fixed_parameter
    (mlp_net : list string -> mlp_call -> Tensor)
    (variable_value : list string -> nat -> initializer -> bool -> list R)
    (self : GaussianMLPModel) (x : Tensor) (g : graph) (b : bool) :
  _std_share_network self = true \/ _adaptive_std self = true ->
  _build mlp_net variable_value (set_learn_std self b) x g =
  _build mlp_net variable_value self x g.
Proof.
  intros H. apply build_of_dist_params; try reflexivity.
  destruct (_std_share_network self) eqn:Hshare.
  - now rewrite !dist_params_shared.
  - destruct H as [H | Hadapt]; [discriminate|].
    now rewrite !dist_params_adaptive.
Qed.

Lemma learn_std_is_read_only_by_the_fixed_parameter_witness :
  _build linear_net untrained_value (set_learn_std adaptive_model false)
         two_states empty_graph =
  _build linear_net untrained_value adaptive_model two_states empty_graph.
Proof.
  apply (learn_std_is_read_only_by_the_fixed_parameter linear_net untrained_value
           adaptive_model two_states empty_graph false).
  right. reflexivity.
Defined.

(** X10: the constructor stores [std_output_b_init] (line 85) but the
    forward definition never reads it: in every configuration, replacing it
    changes no output and no logged call.  The std network's output bias is
    always the constant [init_std_param] (lines 173-174). *)
Theorem std_output_b_init_is_never_read
    (mlp_net : list string -> mlp_call -> Tensor)
    (variable_value : list string -> nat -> initializer -> bool -> list R)
    (self : GaussianMLPModel) (x : Tensor) (g : graph) (i : initializer) :
  _build mlp_net variable_value (set_std_output_b_init self i) x g =
  _build mlp_net variable_value self x g.
Proof.
  apply build_of_dist_params; reflexivity.
Qed.

(** X11: with [std_share_network] the caller's [output_b_init] is not
    used either: the shared network's output bias is the constant of lines
    124-127, and replacing [output_b_init] changes nothing. *)
Theorem shared_network_overrides_output_b_init
    (mlp_net : list string -> mlp_call -> Tensor)
    (variable_value : list string -> nat -> initializer -> bool -> list R)
    (self : GaussianMLPModel) (x : Tensor) (g : graph) (i : initializer) :
  _std_share_network self = true ->
  _build mlp_net variable_value (set_output_b_init self i) x g =
  _build mlp_net variable_value self x g.
Proof.
  intros Hshare. apply build_of_dist_params; try reflexivity.
  now rewrite !dist_params_shared.
Qed.

Lemma shared_network_overrides_output_b_init_witness :
  _build linear_net untrained_value
         (set_output_b_init shared_model glorot_uniform_initializer)
         two_states empty_graph =
  _build linear_net untrained_value shared_model two_states empty_graph.
Proof.
  apply (shared_network_overrides_output_b_init linear_net untrained_value
           shared_model two_states empty_graph glorot_uniform_initializer).
  reflexivity.
Defined.

Lemma build_mean_unshared
    (mlp_net : list string -> mlp_call -> Tensor)
    (variable_value : list string -> nat -> initializer -> bool -> list R)
    (self : GaussianMLPModel) (x : Tensor) (g : graph) :
  _std_share_network self = false ->
  out_mean (fst (_build mlp_net variable_value self x g)) =
  mlp_net (scope g ++ ["dist_params"]) (mean_mlp_call self x).
Proof.
  intros Hshare. rewrite build_unfold. simpl.
  destruct (_adaptive_std self) eqn:Hadapt.
  - now rewrite dist_params_adaptive.
  - now rewrite dist_params_fixed.
Qed.

(** X12: without a shared network the mean is the output of the mean
    network alone.  It is the same tensor whether the std is adaptive or a
    fixed parameter, trainable or not, and whatever the std network's sizes,
    nonlinearities and initializers are. *)
Theorem unshared_mean_ignores_std_options
    (mlp_net : list string -> mlp_call -> Tensor)
    (variable_value : list string -> nat -> initializer -> bool -> list R)
    (self : GaussianMLPModel) (x : Tensor) (g : graph)
    (adaptive learn : bool) (sizes : list nat) (hidden_nl : nonlinearity)
    (hidden_w hidden_b : initializer) (output_nl : nonlinearity)
    (output_w output_b : initializer) :
  _std_share_network self = false ->
  let self' := set_learn_std
                 (set_std_network_options self adaptive sizes hidden_nl hidden_w
                    hidden_b output_nl output_w output_b) learn in
  out_mean (fst (_build mlp_net variable_value self' x g)) =
  out_mean (fst (_build mlp_net variable_value self x g)).
Proof.
  intros Hshare self'.
  rewrite !build_mean_unshared by assumption. reflexivity.
Qed.

Lemma unshared_mean_ignores_std_options_witness :
  out_mean (fst (_build linear_net untrained_value
                   (set_learn_std
                      (set_std_network_options default_model true [8%nat] None
                         zeros_initializer zeros_initializer None
                         zeros_initializer zeros_initializer) false)
                   two_states empty_graph)) =
  out_mean (fst (_build linear_net untrained_value default_model two_states
                   empty_graph)).
Proof.
  apply (unshared_mean_ignores_std_options linear_net untrained_value
           default_model two_states empty_graph true false [8%nat] None
           zeros_initializer zeros_initializer None zeros_initializer
           zeros_initializer).
  reflexivity.
Defined.

(** ** Shapes and sizes of the forward output *)

Lemma sample_shape (rnd : list R) (log_std mean : Tensor) :
  well_shaped log_std -> well_shaped mean ->
  width log_std = List.length rnd -> width mean = List.length rnd ->
  batch_size log_std = batch_size mean ->
  let sample := tensor_add (broadcast_mul rnd (tf_exp log_std)) mean in
  width sample = width mean /\
  batch_size sample = batch_size mean /\
  well_shaped sample.
Proof.
  intros Hl Hm Hwl Hwm Hb sample.
  assert (Hbs : batch_size sample = batch_size mean).
  { unfold sample, batch_size, tensor_add, broadcast_mul, tf_exp, tmap in *.
    simpl. rewrite length_map2, !length_map. lia. }
  split; [|split; [exact Hbs|]].
  - unfold sample, tensor_add, broadcast_mul, tf_exp, tmap. simpl.
    now rewrite Hwl, Hwm.
  - unfold well_shaped. apply Forall_nth. intros i d Hi.
    fold (batch_size sample) in Hi. rewrite Hbs in Hi.
    rewrite (nth_indep _ d []) by (fold (batch_size sample); lia).
    unfold sample. rewrite row_sample by assumption.
    pose proof (well_shaped_row log_std i Hl ltac:(lia)) as Hrl.
    pose proof (well_shaped_row mean i Hm Hi) as Hrm.
    rewrite !length_map2, length_map. simpl.
    change (width (tmap exp log_std)) with (width log_std). lia.
Qed.

Section ForwardShapes.

Variable mlp_net : list string -> mlp_call -> Tensor.
Variable variable_value : list string -> nat -> initializer -> bool -> list R.
Hypothesis mlp_shape : mlp_honours_shape mlp_net.
Hypothesis variable_length : variable_honours_length variable_value.

Lemma build_shapes (self : GaussianMLPModel) (x : Tensor) (g : graph) :
  let out := fst (_build mlp_net variable_value self x g) in
  has_shape (batch_size x) (_output_dim self) (out_sample out) /\
  has_shape (batch_size x) (_output_dim self) (out_mean out) /\
  has_shape (batch_size x) (_output_dim self) (out_log_std out) /\
  has_shape (batch_size x) (_output_dim self) (out_std_param out).
Proof.
  intros out. subst out. rewrite build_unfold. simpl.
  destruct (dist_params_shapes mlp_net variable_value mlp_shape variable_length
              self x g) as [[Hmw [Hmb Hms]] [Hrw [Hrb Hrs]]].
  set (r := fst (dist_params mlp_net variable_value self x g)) in *.
  destruct (std_limits_shape self (snd r)) as [Hcw [Hcb Hcs]].
  destruct (to_log_std_shape self (std_limits self (snd r))) as [Hlw [Hlb Hls]].
  assert (Hnoise : List.length (map (random g) (seq 0 (width (fst r)))) =
                   width (fst r)) by now rewrite length_map, length_seq.
  unfold has_shape.
  destruct (sample_shape (map (random g) (seq 0 (width (fst r))))
              (to_log_std self (std_limits self (snd r))) (fst r))
    as [Hsw [Hsb Hss]]; auto; try lia.
  repeat split; auto; lia.
Qed.

End ForwardShapes.

(** X13: whichever of the three branches builds the std, the four tensors
    of the forward output (sample, mean, log-std, std parameter) all have
    the shape [batch, output_dim] with the batch size of [state_input],
    provided the subnetwork builder returns the width it is asked for and a
    variable has the length it was created with. *)
Theorem forward_outputs_share_one_shape
    (mlp_net : list string -> mlp_call -> Tensor)
    (variable_value : list string -> nat -> initializer -> bool -> list R)
    (self : GaussianMLPModel) (x : Tensor) (g : graph) :
  mlp_honours_shape mlp_net ->
  variable_honours_length variable_value ->
  let out := fst (_build mlp_net variable_value self x g) in
  has_shape (batch_size x) (_output_dim self) (out_sample out) /\
  has_shape (batch_size x) (_output_dim self) (out_mean out) /\
  has_shape (batch_size x) (_output_dim self) (out_log_std out) /\
  has_shape (batch_size x) (_output_dim self) (out_std_param out).
Proof. intros Hmlp Hvar. now apply build_shapes. Qed.

Lemma forward_outputs_share_one_shape_witness :
  has_shape (batch_size two_states) (_output_dim adaptive_model)
    (out_sample (fst (_build linear_net untrained_value adaptive_model
                        two_states empty_graph))).
Proof.
  exact (proj1 (forward_outputs_share_one_shape linear_net untrained_value
                  adaptive_model two_states empty_graph
                  linear_net_honours_shape untrained_value_honours_length)).
Defined.

(** ** Where variables are created *)

(** X15: a forward definition only appends to the log of variable-creating
    calls and puts the scope back as it found it.  It makes one call with a
    shared network and two otherwise, and every one of them is made directly
    in the scope [dist_params]: the blocks [std_limits] and
    [std_parameterization] create no variable. *)
Theorem variables_are_created_in_dist_params
    (mlp_net : list string -> mlp_call -> Tensor)
    (variable_value : list string -> nat -> initializer -> bool -> list R)
    (self : GaussianMLPModel) (x : Tensor) (g : graph) :
  let g' := snd (_build mlp_net variable_value self x g) in
  scope g' = scope g /\
  exists new,
    calls g' = calls g ++ new /\
    List.length new = (if _std_share_network self then 1 else 2)%nat /\
    Forall (fun c => call_scope c = scope g ++ ["dist_params"]) new.
Proof.
  intros g'. subst g'. rewrite build_unfold. simpl.
  split; [reflexivity|].
  destruct (_std_share_network self) eqn:Hshare.
  - rewrite dist_params_shared by assumption. simpl.
    eexists. split; [reflexivity|]. split; [reflexivity|].
    repeat constructor.
  - destruct (_adaptive_std self) eqn:Hadapt.
    + rewrite dist_params_adaptive by assumption. simpl.
      rewrite <- app_assoc. simpl.
      eexists. split; [reflexivity|]. split; [reflexivity|].
      repeat constructor.
    + rewrite dist_params_fixed by assumption. simpl.
      rewrite <- app_assoc. simpl.
      eexists. split; [reflexivity|]. split; [reflexivity|].
      repeat constructor.
Qed.

(** ** Splitting the shared network *)

Lemma split_rows_rejoin (n : nat) (rs : list (list R)) :
  map2 (@app R) (map (firstn n) rs) (map (skipn n) rs) = rs.
Proof.
  induction rs as [|r rs IH]; simpl; [reflexivity|].
  now rewrite firstn_skipn, IH.
Qed.

(** X16: the split of lines 141-144 loses nothing and duplicates nothing.
    With a shared network, joining each row of the mean with the same row
    of the raw std parameter gives back the rows of the shared network's
    output, whatever width the builder returned. *)
Theorem shared_split_rejoins_to_network_output
    (mlp_net : list string -> mlp_call -> Tensor)
    (variable_value : list string -> nat -> initializer -> bool -> list R)
    (self : GaussianMLPModel) (x : Tensor) (g : graph) :
  _std_share_network self = true ->
  let r := fst (dist_params mlp_net variable_value self x g) in
  map2 (@app R) (rows (fst r)) (rows (snd r)) =
  rows (mlp_net (scope g ++ ["dist_params"]) (shared_mlp_call self x)).
Proof.
  intros Hshare r. subst r.
  rewrite dist_params_shared by assumption. simpl.
  apply split_rows_rejoin.
Qed.

Lemma shared_split_rejoins_to_network_output_witness :
  map2 (@app R)
    (rows (fst (fst (dist_params linear_net untrained_value shared_model
                       two_states empty_graph))))
    (rows (snd (fst (dist_params linear_net untrained_value shared_model
                       two_states empty_graph)))) =
  rows (linear_net (scope empty_graph ++ ["dist_params"])
          (shared_mlp_call shared_model two_states)).
Proof.
  apply (shared_split_rejoins_to_network_output linear_net untrained_value
           shared_model two_states empty_graph).
  reflexivity.
Defined.
